(** * preload.c: a partition of a disk image presented as a whole file

    A shallow embedding of [src/preload.c], the [LD_PRELOAD] shim that
    interposes [lseek], [__xstat], [__fxstat] and [fallocate] so that one
    partition of an MBR disk image looks like the whole file.

    The process globals of the C file are the fields of [process]; the C
    functions are computations in a small state-and-failure monad [M];
    [abort()] is the failure [Aborted].  Everything behind the shim (the
    kernel, libc, the dynamic linker) is a [host]: a record of oracles over
    an abstract operating-system state.  Every call that leaves the shim is
    recorded in [trace], newest event first.

    Integer model (x86-64 Linux, LP64): [uint32_t] arithmetic is reduced
    modulo 2^32, [off_t] is a 64-bit two's-complement integer whose
    arithmetic wraps ([wrap_off]); [int] values are kept in [Z]. *)

From Stdlib Require Import ZArith List String Bool Lia.
From Stdlib Require Import Strings.Byte.
Import ListNotations.
Local Open Scope Z_scope.

(** ** Machine integers *)

Definition wrap_u32 (z : Z) : Z := z mod 2 ^ 32.

Definition wrap_off (z : Z) : Z := (z + 2 ^ 63) mod 2 ^ 64 - 2 ^ 63.

Definition OFF_MAX : Z := 2 ^ 63 - 1.

(** ** Constants of the system headers (Linux, x86-64) *)

Definition SEEK_SET : Z := 0.
Definition SEEK_CUR : Z := 1.
Definition SEEK_END : Z := 2.
Definition EINVAL : Z := 22.
Definition _STAT_VER : Z := 1.
Definition S_IFMT : Z := 61440.   (* 0170000 *)
Definition S_IFREG : Z := 32768.  (* 0100000 *)

Definition S_ISREG (m : Z) : bool := Z.land m S_IFMT =? S_IFREG.

(** ** The boot sector *)

(** [mbr[i]] as an integer; the callers stay inside the array. *)
Definition u8 (mbr : list byte) (i : Z) : Z :=
  Z.of_N (Byte.to_N (nth (Z.to_nat i) mbr x00)).

(** A 32-bit load on a little-endian host. *)
Definition load32 (mbr : list byte) (i : Z) : Z :=
  u8 mbr i + 2 ^ 8 * u8 mbr (i + 1) + 2 ^ 16 * u8 mbr (i + 2)
  + 2 ^ 24 * u8 mbr (i + 3).

(** [htole32] is the identity on a little-endian host. *)
Definition htole32 (x : Z) : Z := x.

Record part_t := {
  status : Z;
  start_head : Z;
  start_sector : Z;
  start_cylinder : Z;
  part_type : Z;
  end_head : Z;
  end_sector : Z;
  end_cylinder : Z;
  start_lba : Z;
  num_sectors : Z
}.

(** [(part_t* )&mbr[off]]: the packed struct overlaid on the sector.  The
    overlay is defined only when its 16 bytes lie inside the array. *)
Definition part_at (mbr : list byte) (off : Z) : option part_t :=
  if (0 <=? off) && (off + 16 <=? Z.of_nat (List.length mbr)) then
    Some {| status := u8 mbr off;
            start_head := u8 mbr (off + 1);
            start_sector := u8 mbr (off + 2);
            start_cylinder := u8 mbr (off + 3);
            part_type := u8 mbr (off + 4);
            end_head := u8 mbr (off + 5);
            end_sector := u8 mbr (off + 6);
            end_cylinder := u8 mbr (off + 7);
            start_lba := load32 mbr (off + 8);
            num_sectors := load32 mbr (off + 12) |}
  else None.

(** ** struct stat *)

Record stat := {
  st_dev : Z;
  st_ino : Z;
  st_nlink : Z;
  st_mode : Z;
  st_uid : Z;
  st_gid : Z;
  st_rdev : Z;
  st_size : Z;
  st_blksize : Z;
  st_blocks : Z;
  st_atime : Z;
  st_mtime : Z;
  st_ctime : Z
}.

Definition set_st_size (v : Z) (b : stat) : stat :=
  {| st_dev := st_dev b; st_ino := st_ino b; st_nlink := st_nlink b;
     st_mode := st_mode b; st_uid := st_uid b; st_gid := st_gid b;
     st_rdev := st_rdev b; st_size := v; st_blksize := st_blksize b;
     st_blocks := st_blocks b; st_atime := st_atime b;
     st_mtime := st_mtime b; st_ctime := st_ctime b |}.

(** ** What the shim writes to stderr, and what leaves the shim *)

Inductive diag :=
| MsgReadFailed (ret : Z)
| MsgSignatureMissing (b510 b511 : Z)
| MsgExtended
| MsgInvalidEntry (start_lba num_sectors : Z)
| MsgPartitionDetected (base size : Z)
| MsgNoFilename
| MsgOpenFailed (filename : string)
| MsgStatFailed
| MsgNoPartNum
| MsgInvalidPartition (part_num_str : string)
| MsgGetPartitionFailed
| MsgDlsymFailed (name : string)
| MsgInvalidLocation (ret : Z).

Inductive event :=
| EvStderr (d : diag)
| EvDlsym (name : string)
| EvInit (flag : bool)       (* a call of init() and the flag it found *)
| EvOpen (name : string)
| EvRead (fd : Z)
| EvClose (fd : Z)
| EvRealLseek (fd offset whence : Z)
| EvRealXstat (ver : Z) (path : string)
| EvRealFxstat (ver fd : Z).

Inductive failure := Aborted | Undefined | OutOfFuel.

Inductive outcome (A : Type) :=
| Ret (a : A)
| Stop (f : failure).

Arguments Ret {A} a.
Arguments Stop {A} f.

(** ** Calls and answers, for runs of the shim *)

Inductive call :=
| CallLseek (fd offset whence : Z)
| CallXstat (ver : Z) (path : string) (buf : stat)
| CallFxstat (ver fd : Z) (buf : stat)
| CallFallocate (fd mode offset len : Z).

Inductive answer :=
| AnsLseek (ret : Z)
| AnsStat (ret : Z) (buf : stat)
| AnsFallocate (ret : Z).

(** ** Reading the trace *)

Definition is_dlsym (name : string) (e : event) : bool :=
  match e with
  | EvDlsym n => String.eqb n name
  | _ => false
  end.

(** A call of init() that found the flag clear, and so ran the body. *)
Definition is_init_body (e : event) : bool :=
  match e with
  | EvInit false => true
  | _ => false
  end.

Definition is_real_lseek (e : event) : bool :=
  match e with
  | EvRealLseek _ _ _ => true
  | _ => false
  end.

(** Plain I/O of the shim itself: diagnostics and the reads of the image. *)
Definition is_io (e : event) : bool :=
  match e with
  | EvStderr _ | EvOpen _ | EvRead _ | EvClose _ => true
  | _ => false
  end.

Definition is_real_xstat (e : event) : bool :=
  match e with
  | EvRealXstat _ _ => true
  | _ => false
  end.

Definition is_real_fxstat (e : event) : bool :=
  match e with
  | EvRealFxstat _ _ => true
  | _ => false
  end.

(** 1 for a cached pointer, 0 for a null one. *)
Definition resolved {A : Type} (p : option A) : nat :=
  match p with
  | Some _ => 1
  | None => 0
  end.

Definition is_open (e : event) : bool :=
  match e with
  | EvOpen _ => true
  | _ => false
  end.

Definition is_read (e : event) : bool :=
  match e with
  | EvRead _ => true
  | _ => false
  end.

Definition is_close (e : event) : bool :=
  match e with
  | EvClose _ => true
  | _ => false
  end.

(** [t] is [t0] with more events logged after it. *)
Definition extends (t0 t : list event) : Prop := exists l, t = l ++ t0.

Definition count (p : event -> bool) (t : list event) : nat :=
  List.length (filter p t).

Declare Scope monad_scope.
Delimit Scope monad_scope with monad.

Section Shim.

Context {OS : Type}.

(** The real operations found by [dlsym(RTLD_NEXT, ...)].  The stat
    operations receive the caller's buffer and give it back. *)
Definition real_lseek_t := Z -> Z -> Z -> OS -> Z * OS.
Definition real_stat_t := Z -> string -> stat -> OS -> (Z * stat) * OS.
Definition real_fstat_t := Z -> Z -> stat -> OS -> (Z * stat) * OS.

Record host := {
  getenv : string -> option string;
  atoi : string -> Z;
  sys_open : string -> OS -> Z * OS;                (* open(name, O_RDONLY) *)
  sys_read : Z -> OS -> option (list byte) * OS;    (* the bytes read, or an error *)
  sys_close : Z -> OS -> OS;
  next_lseek : option real_lseek_t;                 (* dlsym(RTLD_NEXT, "lseek") *)
  next_xstat : option real_stat_t;                  (* dlsym(RTLD_NEXT, "__xstat") *)
  next_fxstat : option real_fstat_t;                (* dlsym(RTLD_NEXT, "__fxstat") *)
  stack_stat : stat                                 (* the uninitialised [struct stat buf] of init *)
}.

(** The globals of preload.c, with [errno], the state behind the host and
    the log of what left the shim. *)
Record process := {
  initialized : bool;
  file_dev : Z;
  file_ino : Z;
  partition_size_bytes : Z;
  partition_base_bytes : Z;
  partition_end_bytes : Z;
  real_lseek : option real_lseek_t;
  real_stat : option real_stat_t;
  real_fstat : option real_fstat_t;
  errno : Z;
  os : OS;
  trace : list event
}.

Definition set_initialized (v : bool) (s : process) : process :=
  {| initialized := v; file_dev := file_dev s; file_ino := file_ino s;
     partition_size_bytes := partition_size_bytes s;
     partition_base_bytes := partition_base_bytes s;
     partition_end_bytes := partition_end_bytes s;
     real_lseek := real_lseek s; real_stat := real_stat s;
     real_fstat := real_fstat s; errno := errno s; os := os s;
     trace := trace s |}.

Definition set_file_dev (v : Z) (s : process) : process :=
  {| initialized := initialized s; file_dev := v; file_ino := file_ino s;
     partition_size_bytes := partition_size_bytes s;
     partition_base_bytes := partition_base_bytes s;
     partition_end_bytes := partition_end_bytes s;
     real_lseek := real_lseek s; real_stat := real_stat s;
     real_fstat := real_fstat s; errno := errno s; os := os s;
     trace := trace s |}.

Definition set_file_ino (v : Z) (s : process) : process :=
  {| initialized := initialized s; file_dev := file_dev s; file_ino := v;
     partition_size_bytes := partition_size_bytes s;
     partition_base_bytes := partition_base_bytes s;
     partition_end_bytes := partition_end_bytes s;
     real_lseek := real_lseek s; real_stat := real_stat s;
     real_fstat := real_fstat s; errno := errno s; os := os s;
     trace := trace s |}.

Definition set_partition_size_bytes (v : Z) (s : process) : process :=
  {| initialized := initialized s; file_dev := file_dev s;
     file_ino := file_ino s;
     partition_size_bytes := v;
     partition_base_bytes := partition_base_bytes s;
     partition_end_bytes := partition_end_bytes s;
     real_lseek := real_lseek s; real_stat := real_stat s;
     real_fstat := real_fstat s; errno := errno s; os := os s;
     trace := trace s |}.

Definition set_partition_base_bytes (v : Z) (s : process) : process :=
  {| initialized := initialized s; file_dev := file_dev s;
     file_ino := file_ino s;
     partition_size_bytes := partition_size_bytes s;
     partition_base_bytes := v;
     partition_end_bytes := partition_end_bytes s;
     real_lseek := real_lseek s; real_stat := real_stat s;
     real_fstat := real_fstat s; errno := errno s; os := os s;
     trace := trace s |}.

Definition set_partition_end_bytes (v : Z) (s : process) : process :=
  {| initialized := initialized s; file_dev := file_dev s;
     file_ino := file_ino s;
     partition_size_bytes := partition_size_bytes s;
     partition_base_bytes := partition_base_bytes s;
     partition_end_bytes := v;
     real_lseek := real_lseek s; real_stat := real_stat s;
     real_fstat := real_fstat s; errno := errno s; os := os s;
     trace := trace s |}.

Definition set_real_lseek (v : option real_lseek_t) (s : process) : process :=
  {| initialized := initialized s; file_dev := file_dev s;
     file_ino := file_ino s;
     partition_size_bytes := partition_size_bytes s;
     partition_base_bytes := partition_base_bytes s;
     partition_end_bytes := partition_end_bytes s;
     real_lseek := v; real_stat := real_stat s;
     real_fstat := real_fstat s; errno := errno s; os := os s;
     trace := trace s |}.

Definition set_real_stat (v : option real_stat_t) (s : process) : process :=
  {| initialized := initialized s; file_dev := file_dev s;
     file_ino := file_ino s;
     partition_size_bytes := partition_size_bytes s;
     partition_base_bytes := partition_base_bytes s;
     partition_end_bytes := partition_end_bytes s;
     real_lseek := real_lseek s; real_stat := v;
     real_fstat := real_fstat s; errno := errno s; os := os s;
     trace := trace s |}.

Definition set_real_fstat (v : option real_fstat_t) (s : process) : process :=
  {| initialized := initialized s; file_dev := file_dev s;
     file_ino := file_ino s;
     partition_size_bytes := partition_size_bytes s;
     partition_base_bytes := partition_base_bytes s;
     partition_end_bytes := partition_end_bytes s;
     real_lseek := real_lseek s; real_stat := real_stat s;
     real_fstat := v; errno := errno s; os := os s;
     trace := trace s |}.

Definition set_errno (v : Z) (s : process) : process :=
  {| initialized := initialized s; file_dev := file_dev s;
     file_ino := file_ino s;
     partition_size_bytes := partition_size_bytes s;
     partition_base_bytes := partition_base_bytes s;
     partition_end_bytes := partition_end_bytes s;
     real_lseek := real_lseek s; real_stat := real_stat s;
     real_fstat := real_fstat s; errno := v; os := os s;
     trace := trace s |}.

Definition set_os (v : OS) (s : process) : process :=
  {| initialized := initialized s; file_dev := file_dev s;
     file_ino := file_ino s;
     partition_size_bytes := partition_size_bytes s;
     partition_base_bytes := partition_base_bytes s;
     partition_end_bytes := partition_end_bytes s;
     real_lseek := real_lseek s; real_stat := real_stat s;
     real_fstat := real_fstat s; errno := errno s; os := v;
     trace := trace s |}.

Definition set_trace (v : list event) (s : process) : process :=
  {| initialized := initialized s; file_dev := file_dev s;
     file_ino := file_ino s;
     partition_size_bytes := partition_size_bytes s;
     partition_base_bytes := partition_base_bytes s;
     partition_end_bytes := partition_end_bytes s;
     real_lseek := real_lseek s; real_stat := real_stat s;
     real_fstat := real_fstat s; errno := errno s; os := os s;
     trace := v |}.

(** The process image at start-up: C zero-initialises the statics. *)
Definition startup (o : OS) : process :=
  {| initialized := false; file_dev := 0; file_ino := 0;
     partition_size_bytes := 0; partition_base_bytes := 0;
     partition_end_bytes := 0;
     real_lseek := None; real_stat := None; real_fstat := None;
     errno := 0; os := o; trace := [] |}.

(** ** The monad *)

Definition M (A : Type) : Type := process -> outcome A * process.

Definition pure {A} (a : A) : M A := fun s => (Ret a, s).

Definition bind {A B} (m : M A) (k : A -> M B) : M B :=
  fun s =>
    match m s with
    | (Ret a, s') => k a s'
    | (Stop f, s') => (Stop f, s')
    end.

Notation "x <- c1 ;; c2" := (bind c1 (fun x => c2))
  (at level 61, c1 at next level, right associativity) : monad_scope.
Notation "c1 ;; c2" := (bind c1 (fun _ => c2))
  (at level 61, right associativity) : monad_scope.
Local Open Scope monad_scope.

Definition get : M process := fun s => (Ret s, s).

Definition modify (f : process -> process) : M unit :=
  fun s => (Ret tt, f s).

Definition log (e : event) : M unit :=
  modify (fun s => set_trace (e :: trace s) s).

Definition fprintf (d : diag) : M unit := log (EvStderr d).

Definition abort {A} : M A := fun s => (Stop Aborted, s).

Definition undefined {A} : M A := fun s => (Stop Undefined, s).

Definition out_of_fuel {A} : M A := fun s => (Stop OutOfFuel, s).

(** A call into the host. *)
Definition sys {A} (call : OS -> A * OS) : M A :=
  fun s => let (a, o) := call (os s) in (Ret a, set_os o s).

Variable H : host.

Definition open (name : string) : M Z :=
  log (EvOpen name) ;; sys (sys_open H name).

(** [read(fd, mbr, sizeof(mbr))]: the return value and the array after the
    call.  At most 512 bytes arrive. *)
Definition read (fd : Z) : M (Z * list byte) :=
  log (EvRead fd) ;;
  r <- sys (sys_read H fd) ;;
  match r with
  | None => pure (-1, [])
  | Some bytes =>
      let mbr := firstn 512 bytes in
      pure (Z.of_nat (List.length mbr), mbr)
  end.

Definition close (fd : Z) : M unit :=
  log (EvClose fd) ;;
  sys (fun o => (tt, sys_close H fd o)).

(** ** get_partition *)

Definition get_partition (name : string) (part_num : Z) : M Z :=
  fd <- open name ;;
  if fd <? 0 then pure (-1) else
  exit_code <-
    (r <- read fd ;;
     let '(ret, mbr) := r in
     if negb (ret =? 512) then
       fprintf (MsgReadFailed ret) ;; pure (-1)
     else if negb (u8 mbr 511 =? 170) || negb (u8 mbr 510 =? 85) then
       fprintf (MsgSignatureMissing (u8 mbr 510) (u8 mbr 511)) ;; pure (-1)
     else if part_num <? 4 then
       match part_at mbr (446 + (part_num - 1) * 16) with
       | None => undefined
       | Some part =>
           let start_lba := htole32 (start_lba part) in
           let num_sectors := htole32 (num_sectors part) in
           if (start_lba =? 0) || (num_sectors =? 0) then
             fprintf (MsgInvalidEntry start_lba num_sectors) ;; pure (-1)
           else
             modify (set_partition_base_bytes (wrap_u32 (start_lba * 512))) ;;
             modify (set_partition_size_bytes (wrap_u32 (num_sectors * 512))) ;;
             modify (fun s => set_partition_end_bytes
                       (wrap_off (partition_base_bytes s + partition_size_bytes s)) s) ;;
             s <- get ;;
             fprintf (MsgPartitionDetected (partition_base_bytes s)
                                           (partition_size_bytes s)) ;;
             pure 0
       end
     else
       fprintf MsgExtended ;; pure (-1)) ;;
  close fd ;;
  pure exit_code.

(** ** fixup_statbuf and the stat overrides *)

Definition fixup_statbuf (ret : Z) (buf : stat) : M (Z * stat) :=
  s <- get ;;
  if (ret =? 0) && S_ISREG (st_mode buf)
     && (st_dev buf =? file_dev s) && (st_ino buf =? file_ino s)
  then pure (ret, set_st_size (partition_size_bytes s) buf)
  else pure (ret, buf).

(** The overrides call [init]; [init] calls [fstat], which glibc's header
    turns into [__fxstat(_STAT_VER, fd, buf)], the override of this file.
    The overrides are therefore written over the [init] they call. *)
Definition __fxstat_with (init : M unit) (ver fd : Z) (buf : stat) : M (Z * stat) :=
  s <- get ;;
  f <- match real_fstat s with
       | Some f => pure f
       | None =>
           log (EvDlsym "__fxstat"%string) ;;
           modify (set_real_fstat (next_fxstat H)) ;;
           match next_fxstat H with
           | None => fprintf (MsgDlsymFailed "__fxstat"%string) ;; abort
           | Some f => init ;; pure f
           end
       end ;;
  log (EvRealFxstat ver fd) ;;
  r <- sys (f ver fd buf) ;;
  fixup_statbuf (fst r) (snd r).

Definition __xstat_with (init : M unit) (ver : Z) (path : string) (buf : stat)
  : M (Z * stat) :=
  s <- get ;;
  f <- match real_stat s with
       | Some f => pure f
       | None =>
           log (EvDlsym "__xstat"%string) ;;
           modify (set_real_stat (next_xstat H)) ;;
           match next_xstat H with
           | None => fprintf (MsgDlsymFailed "__xstat"%string) ;; abort
           | Some f => init ;; pure f
           end
       end ;;
  log (EvRealXstat ver path) ;;
  r <- sys (f ver path buf) ;;
  fixup_statbuf (fst r) (snd r).

(** ** init *)

(** [fuel] bounds the depth of the calls init -> fstat -> init. *)
Fixpoint init_fuel (fuel : nat) : M unit :=
  match fuel with
  | O => out_of_fuel
  | S fuel' =>
      s <- get ;;
      log (EvInit (initialized s)) ;;
      if initialized s then pure tt else
      modify (set_initialized true) ;;
      match getenv H "P_FILE"%string with
      | None => fprintf MsgNoFilename ;; abort
      | Some filename =>
          fd <- open filename ;;
          if fd <? 0 then fprintf (MsgOpenFailed filename) ;; abort else
          r <- __fxstat_with (init_fuel fuel') _STAT_VER fd (stack_stat H) ;;
          let '(ret, buf) := r in
          if ret <? 0 then fprintf MsgStatFailed ;; abort else
          close fd ;;
          modify (set_file_dev (st_dev buf)) ;;
          modify (set_file_ino (st_ino buf)) ;;
          match getenv H "P_NUM"%string with
          | None => fprintf MsgNoPartNum ;; abort
          | Some part_num_str =>
              let part_num := atoi H part_num_str in
              if (part_num <? 1) || (part_num >? 8) then
                fprintf (MsgInvalidPartition part_num_str) ;; abort
              else
                ret <- get_partition filename part_num ;;
                if ret <? 0 then fprintf MsgGetPartitionFailed ;; abort
                else pure tt
          end
      end
  end.

(** Two levels are all the nesting there is ([init_fuel_enough]). *)
Definition init : M unit := init_fuel 2.

Definition __xstat : Z -> string -> stat -> M (Z * stat) := __xstat_with init.

Definition __fxstat : Z -> Z -> stat -> M (Z * stat) := __fxstat_with init.

(** ** lseek *)

(** The [switch] of lseek: the offset and whence the real operation is to
    be called with, or nothing in the [default] case. *)
Definition lseek_switch (offset whence : Z) (s : process) : option (Z * Z) :=
  if whence =? SEEK_SET then
    let offset := wrap_off (offset + partition_base_bytes s) in
    let offset := if offset >? partition_end_bytes s
                  then partition_end_bytes s else offset in
    Some (offset, whence)
  else if whence =? SEEK_CUR then
    Some (offset, whence)
  else if whence =? SEEK_END then
    Some (partition_end_bytes s, SEEK_SET)
  else
    None.

Definition lseek (fd offset whence : Z) : M Z :=
  s <- get ;;
  f <- match real_lseek s with
       | Some f => pure f
       | None =>
           log (EvDlsym "lseek"%string) ;;
           modify (set_real_lseek (next_lseek H)) ;;
           match next_lseek H with
           | None => fprintf (MsgDlsymFailed "lseek"%string) ;; abort
           | Some f => init ;; pure f
           end
       end ;;
  s <- get ;;
  match lseek_switch offset whence s with
  | None => modify (set_errno EINVAL) ;; pure (-1)
  | Some (offset, whence) =>
      log (EvRealLseek fd offset whence) ;;
      ret <- sys (f fd offset whence) ;;
      if ret <? 0 then pure ret else
      if ret >=? partition_base_bytes s then
        pure (wrap_off (ret - partition_base_bytes s))
      else
        fprintf (MsgInvalidLocation ret) ;; abort
  end.

(** ** fallocate *)

Definition fallocate (fd mode offset len : Z) : M Z := pure 0.

(** ** Runs *)

(** The globals other than the window. *)
Definition same_globals (s s' : process) : Prop :=
  initialized s' = initialized s /\ file_dev s' = file_dev s /\
  file_ino s' = file_ino s /\ real_lseek s' = real_lseek s /\
  real_stat s' = real_stat s /\ real_fstat s' = real_fstat s /\
  errno s' = errno s.

Definition same_window (s s' : process) : Prop :=
  partition_base_bytes s' = partition_base_bytes s /\
  partition_size_bytes s' = partition_size_bytes s /\
  partition_end_bytes s' = partition_end_bytes s.

(** The window as [get_partition] leaves it: two 32-bit quantities and
    their exact sum. *)
Definition window_ok (s : process) : Prop :=
  0 <= partition_base_bytes s < 2 ^ 32 /\
  0 <= partition_size_bytes s < 2 ^ 32 /\
  partition_end_bytes s = partition_base_bytes s + partition_size_bytes s.

Definition perform (c : call) : M answer :=
  match c with
  | CallLseek fd offset whence =>
      r <- lseek fd offset whence ;; pure (AnsLseek r)
  | CallXstat ver path buf =>
      r <- __xstat ver path buf ;; pure (AnsStat (fst r) (snd r))
  | CallFxstat ver fd buf =>
      r <- __fxstat ver fd buf ;; pure (AnsStat (fst r) (snd r))
  | CallFallocate fd mode offset len =>
      r <- fallocate fd mode offset len ;; pure (AnsFallocate r)
  end.

(** The window, the identity and the flag: what the translation reads. *)
Definition same_view (s s' : process) : Prop :=
  same_window s s' /\ file_dev s' = file_dev s /\
  file_ino s' = file_ino s /\ initialized s' = initialized s.

(** Once the flag is set, the window is the one [get_partition] reported
    when it found the partition. *)
Definition detected (s : process) : Prop :=
  initialized s = true ->
  In (EvStderr (MsgPartitionDetected (partition_base_bytes s)
                                     (partition_size_bytes s)))
     (trace s).

(** The window is the one computed from entry [part_num] of the sector
    [mbr]: an entry of the first three slots, with neither word zero, its
    two little-endian words times 512 in 32 bits, and their exact sum. *)
Definition resolved_from (mbr : list byte) (part_num : Z) (s : process) : Prop :=
  part_num < 4 /\
  load32 mbr (446 + (part_num - 1) * 16 + 8) <> 0 /\
  load32 mbr (446 + (part_num - 1) * 16 + 12) <> 0 /\
  partition_base_bytes s
    = wrap_u32 (load32 mbr (446 + (part_num - 1) * 16 + 8) * 512) /\
  partition_size_bytes s
    = wrap_u32 (load32 mbr (446 + (part_num - 1) * 16 + 12) * 512) /\
  partition_end_bytes s = partition_base_bytes s + partition_size_bytes s.

(** The record of a completed initialisation, as the globals and the log
    hold it.  Identity capture: P_FILE opened, in some state [o] of the
    host, the real [__fxstat] succeeded on the descriptor, and [file_dev]
    and [file_ino] are the device and inode it gave.  Boot-sector read:
    after that descriptor was closed the file was opened again and the
    read delivered 512 bytes that end in 0x55, 0xAA.  Partition resolution:
    the window is the one computed from the P_NUM-th entry of those
    bytes. *)
Definition init_completed (s : process) : Prop :=
  exists name str f o ret buf o2 bytes o4,
    getenv H "P_FILE" = Some name /\ getenv H "P_NUM" = Some str /\
    1 <= atoi H str <= 8 /\
    0 <= fst (sys_open H name o) /\
    real_fstat s = Some f /\
    f _STAT_VER (fst (sys_open H name o)) (stack_stat H) (snd (sys_open H name o))
      = ((ret, buf), o2) /\
    0 <= ret /\
    file_dev s = st_dev buf /\ file_ino s = st_ino buf /\
    In (EvRealFxstat _STAT_VER (fst (sys_open H name o))) (trace s) /\
    0 <= fst (sys_open H name (sys_close H (fst (sys_open H name o)) o2)) /\
    sys_read H
      (fst (sys_open H name (sys_close H (fst (sys_open H name o)) o2)))
      (snd (sys_open H name (sys_close H (fst (sys_open H name o)) o2)))
      = (Some bytes, o4) /\
    List.length (firstn 512 bytes) = 512%nat /\
    u8 (firstn 512 bytes) 510 = 85 /\ u8 (firstn 512 bytes) 511 = 170 /\
    In (EvRead (fst (sys_open H name (sys_close H (fst (sys_open H name o)) o2))))
       (trace s) /\
    resolved_from (firstn 512 bytes) (atoi H str) s.

(** With the flag set the initialisation is on record, and the boot
    sector has been read as often as the flag is set: once at most. *)
Definition completed (s : process) : Prop :=
  (initialized s = true -> init_completed s) /\
  count is_read (trace s) = (if initialized s then 1%nat else 0%nat).

(** What holds of the globals and the log between two calls. *)
Definition inv (s : process) : Prop :=
  window_ok s /\
  count (is_dlsym "lseek") (trace s) = resolved (real_lseek s) /\
  count (is_dlsym "__xstat") (trace s) = resolved (real_stat s) /\
  count (is_dlsym "__fxstat") (trace s) = resolved (real_fstat s) /\
  count is_init_body (trace s) = (if initialized s then 1%nat else 0%nat) /\
  (initialized s = false ->
   real_lseek s = None /\ real_stat s = None /\ real_fstat s = None).

(** The file [name] opens, and its first read delivers the 512 bytes
    [mbr]. *)
Definition reads_sector (name : string) (o : OS) (mbr : list byte) : Prop :=
  exists fd o1 bytes o2,
    sys_open H name o = (fd, o1) /\ 0 <= fd /\
    sys_read H fd o1 = (Some bytes, o2) /\
    firstn 512 bytes = mbr /\ List.length mbr = 512%nat.

(** [b] describes the image: a regular file with the captured device and
    inode. *)
Definition is_target (s : process) (b : stat) : Prop :=
  Z.land (st_mode b) S_IFMT = S_IFREG /\
  st_dev b = file_dev s /\ st_ino b = file_ino s.

(** [b'] is [b] in every field but [st_size]. *)
Definition same_but_size (b b' : stat) : Prop :=
  st_dev b' = st_dev b /\ st_ino b' = st_ino b /\
  st_nlink b' = st_nlink b /\ st_mode b' = st_mode b /\
  st_uid b' = st_uid b /\ st_gid b' = st_gid b /\
  st_rdev b' = st_rdev b /\ st_blksize b' = st_blksize b /\
  st_blocks b' = st_blocks b /\ st_atime b' = st_atime b /\
  st_mtime b' = st_mtime b /\ st_ctime b' = st_ctime b.

(** What a stat override hands back, given what the real operation
    returned and left in the buffer: a failure and a file that is not the
    image untouched, the image with the size of the window and nothing
    else changed. *)
Definition fixed_up (s : process) (ret : Z) (real_buf out : stat) : Prop :=
  (ret <> 0 -> out = real_buf) /\
  (ret = 0 -> is_target s real_buf ->
   st_size out = partition_size_bytes s /\ same_but_size real_buf out) /\
  (ret = 0 -> ~ is_target s real_buf -> out = real_buf).

(** The window lies on sector boundaries. *)
Definition aligned (s : process) : Prop :=
  partition_base_bytes s mod 512 = 0 /\ partition_size_bytes s mod 512 = 0.

(** The environment names a file and one of the slots that
    [get_partition] serves. *)
Definition configured : Prop :=
  exists name str,
    getenv H "P_FILE" = Some name /\ getenv H "P_NUM" = Some str /\
    1 <= atoi H str <= 3.

(** The override that [c] calls finds its pointer cached. *)
Definition cached (c : call) (s : process) : Prop :=
  match c with
  | CallLseek _ _ _ => real_lseek s <> None
  | CallXstat _ _ _ => real_stat s <> None
  | CallFxstat _ _ _ => real_fstat s <> None
  | CallFallocate _ _ _ _ => True
  end.

(** [s'] has the window, the identity, the flag and the pointers of [s],
    and nothing was resolved or initialised on the way from [s]. *)
Definition settled (s s' : process) : Prop :=
  same_view s s' /\
  real_lseek s' = real_lseek s /\ real_stat s' = real_stat s /\
  real_fstat s' = real_fstat s /\
  (forall name, count (is_dlsym name) (trace s') = count (is_dlsym name) (trace s)) /\
  count is_init_body (trace s') = count is_init_body (trace s) /\
  extends (trace s) (trace s').

(** The states a live process can be in between two calls: a call that
    aborts ends the process. *)
Inductive reachable : process -> Prop :=
| reachable_startup (o : OS) : reachable (startup o)
| reachable_call (s : process) (c : call) (a : answer) (s' : process) :
    reachable s -> perform c s = (Ret a, s') -> reachable s'.

End Shim.

Notation "x <- c1 ;; c2" := (bind c1 (fun x => c2))
  (at level 61, c1 at next level, right associativity) : monad_scope.
Notation "c1 ;; c2" := (bind c1 (fun _ => c2))
  (at level 61, right associativity) : monad_scope.

Arguments host OS : clear implicits.
Arguments process OS : clear implicits.

(** ** A concrete host

    One image file, ["disk.img"], opened as descriptor 3, and one unrelated
    file, ["notes.txt"], descriptor 4.  The state behind the host is the
    file position of descriptor 3. *)

Module Demo.

Definition byte_of (z : Z) : byte :=
  match Byte.of_N (Z.to_N (z mod 256)) with
  | Some b => b
  | None => x00
  end.

Definition le32_bytes (z : Z) : list byte :=
  [byte_of z; byte_of (z / 2 ^ 8); byte_of (z / 2 ^ 16); byte_of (z / 2 ^ 24)].

(** A 16-byte table entry: status, CHS and type zero, then the two
    little-endian words. *)
Definition entry (e : Z * Z) : list byte :=
  repeat x00 8 ++ le32_bytes (fst e) ++ le32_bytes (snd e).

Definition boot_sector (e1 e2 e3 e4 : Z * Z) (sig510 sig511 : byte) : list byte :=
  repeat x00 446 ++ entry e1 ++ entry e2 ++ entry e3 ++ entry e4
  ++ [sig510; sig511].

Definition image_size : Z := 134217728.

Fixpoint decimal (s : string) (acc : Z) : Z :=
  match s with
  | EmptyString => acc
  | String c rest =>
      let d := Z.of_nat (Ascii.nat_of_ascii c) - 48 in
      if (0 <=? d) && (d <=? 9) then decimal rest (10 * acc + d) else acc
  end.

Definition disk_stat : stat :=
  {| st_dev := 2049; st_ino := 131; st_nlink := 1; st_mode := 33188;
     st_uid := 1000; st_gid := 1000; st_rdev := 0; st_size := image_size;
     st_blksize := 4096; st_blocks := 262144; st_atime := 1700000000;
     st_mtime := 1700000001; st_ctime := 1700000002 |}.

Definition notes_stat : stat :=
  {| st_dev := 2049; st_ino := 132; st_nlink := 1; st_mode := 33188;
     st_uid := 1000; st_gid := 1000; st_rdev := 0; st_size := 57;
     st_blksize := 4096; st_blocks := 8; st_atime := 1700000003;
     st_mtime := 1700000004; st_ctime := 1700000005 |}.

Definition dir_stat : stat :=
  {| st_dev := 2049; st_ino := 2; st_nlink := 3; st_mode := 16877;
     st_uid := 0; st_gid := 0; st_rdev := 0; st_size := 4096;
     st_blksize := 4096; st_blocks := 8; st_atime := 1700000006;
     st_mtime := 1700000007; st_ctime := 1700000008 |}.

Definition zero_stat : stat :=
  {| st_dev := 0; st_ino := 0; st_nlink := 0; st_mode := 0;
     st_uid := 0; st_gid := 0; st_rdev := 0; st_size := 0;
     st_blksize := 0; st_blocks := 0; st_atime := 0;
     st_mtime := 0; st_ctime := 0 |}.

Definition kernel_lseek (fd offset whence : Z) (pos : Z) : Z * Z :=
  if negb (fd =? 3) then (-1, pos) else
  let target :=
    if whence =? SEEK_SET then offset
    else if whence =? SEEK_CUR then pos + offset
    else if whence =? SEEK_END then offset + image_size
    else -1 in
  if target <? 0 then (-1, pos) else (target, target).

Definition kernel_xstat (ver : Z) (path : string) (buf : stat) (pos : Z)
  : (Z * stat) * Z :=
  if String.eqb path "disk.img" then ((0, disk_stat), pos)
  else if String.eqb path "notes.txt" then ((0, notes_stat), pos)
  else if String.eqb path "/" then ((0, dir_stat), pos)
  else ((-1, buf), pos).

Definition kernel_fxstat (ver fd : Z) (buf : stat) (pos : Z) : (Z * stat) * Z :=
  if fd =? 3 then ((0, disk_stat), pos)
  else if fd =? 4 then ((0, notes_stat), pos)
  else ((-1, buf), pos).

Definition the_host (image : list byte) (filename part_num : option string)
  : host Z :=
  {| getenv := fun name =>
       if String.eqb name "P_FILE" then filename
       else if String.eqb name "P_NUM" then part_num
       else None;
     atoi := fun s => decimal s 0;
     sys_open := fun name pos =>
       (if String.eqb name "disk.img" then 3 else -1, pos);
     sys_read := fun fd pos => (if fd =? 3 then Some image else None, pos);
     sys_close := fun _ pos => pos;
     next_lseek := Some kernel_lseek;
     next_xstat := Some kernel_xstat;
     next_fxstat := Some kernel_fxstat;
     stack_stat := zero_stat |}.

(** The image of the worked example: entry 1 starts at sector 2048 and has
    204800 sectors. *)
Definition example_image : list byte :=
  boot_sector (2048, 204800) (0, 0) (0, 0) (0, 0) x55 xaa.

Definition example_host : host Z :=
  the_host example_image (Some "disk.img"%string) (Some "1"%string).

(** The process after a first [lseek(3, 0, SEEK_SET)]. *)
Definition example_ready : process Z :=
  snd (lseek example_host 3 0 SEEK_SET (startup 0)).

(** The same image, asked for its second, empty, slot. *)
Definition empty_slot_host : host Z :=
  the_host example_image (Some "disk.img"%string) (Some "2"%string).

(** A partition in the fourth primary slot. *)
Definition slot4_image : list byte :=
  boot_sector (0, 0) (0, 0) (0, 0) (2048, 204800) x55 xaa.

Definition slot4_host : host Z :=
  the_host slot4_image (Some "disk.img"%string) (Some "4"%string).

(** A partition that starts 4 GiB into the image: sector 2^23. *)
Definition far_image : list byte :=
  boot_sector (8388608, 204800) (0, 0) (0, 0) (0, 0) x55 xaa.

Definition far_host : host Z :=
  the_host far_image (Some "disk.img"%string) (Some "1"%string).

(** An environment without P_FILE. *)
Definition unset_host : host Z := the_host example_image None None.

(** P_FILE names a file that does not open. *)
Definition missing_host : host Z :=
  the_host example_image (Some "missing.img"%string) (Some "1"%string).

(** An image of 100 bytes. *)
Definition short_host : host Z :=
  the_host (repeat x00 100) (Some "disk.img"%string) (Some "1"%string).

(** A partition number outside 1..8. *)
Definition ninth_host : host Z :=
  the_host example_image (Some "disk.img"%string) (Some "9"%string).

(** The image opens as a descriptor on which [fstat] fails. *)
Definition unstattable_host : host Z :=
  {| getenv := getenv example_host;
     atoi := atoi example_host;
     sys_open := fun name pos =>
       (if String.eqb name "disk.img" then 5 else -1, pos);
     sys_read := sys_read example_host;
     sys_close := sys_close example_host;
     next_lseek := Some kernel_lseek;
     next_xstat := Some kernel_xstat;
     next_fxstat := Some kernel_fxstat;
     stack_stat := zero_stat |}.

(** The worked example after a [stat] of the unrelated file as well. *)
Definition example_steady : process Z :=
  snd (__xstat example_host 1 "notes.txt" zero_stat example_ready).

(** A process image in which dlsym finds none of the three symbols. *)
Definition unlinked_host : host Z :=
  {| getenv := getenv example_host;
     atoi := atoi example_host;
     sys_open := sys_open example_host;
     sys_read := sys_read example_host;
     sys_close := sys_close example_host;
     next_lseek := None;
     next_xstat := None;
     next_fxstat := None;
     stack_stat := zero_stat |}.

End Demo.


(** * Properties *)

(** ** Machine integers and bytes *)

Lemma wrap_off_small (z : Z) :
  - 2 ^ 63 <= z <= OFF_MAX -> wrap_off z = z.
Proof.
  unfold wrap_off, OFF_MAX. intros [Hlo Hhi].
  rewrite Z.mod_small by lia. lia.
Qed.

Lemma wrap_u32_range (z : Z) : 0 <= wrap_u32 z < 2 ^ 32.
Proof. unfold wrap_u32. apply Z.mod_pos_bound. lia. Qed.

Lemma wrap_u32_small (z : Z) : 0 <= z < 2 ^ 32 -> wrap_u32 z = z.
Proof. intros Hz. unfold wrap_u32. apply Z.mod_small. exact Hz. Qed.

Lemma u8_range (mbr : list byte) (i : Z) : 0 <= u8 mbr i < 256.
Proof.
  unfold u8. pose proof (Byte.to_N_bounded (nth (Z.to_nat i) mbr x00)). lia.
Qed.

Lemma load32_range (mbr : list byte) (i : Z) : 0 <= load32 mbr i < 2 ^ 32.
Proof.
  unfold load32.
  pose proof (u8_range mbr i). pose proof (u8_range mbr (i + 1)).
  pose proof (u8_range mbr (i + 2)). pose proof (u8_range mbr (i + 3)).
  lia.
Qed.

Lemma count_cons (p : event -> bool) (e : event) (t : list event) :
  count p (e :: t) = ((if p e then 1 else 0) + count p t)%nat.
Proof. unfold count. simpl. destruct (p e); reflexivity. Qed.

Lemma count_app (p : event -> bool) (t1 t2 : list event) :
  count p (t1 ++ t2) = (count p t1 + count p t2)%nat.
Proof.
  unfold count. rewrite filter_app, length_app. reflexivity.
Qed.

Lemma extends_refl (t : list event) : extends t t.
Proof. exists []. reflexivity. Qed.

Lemma extends_cons (e : event) (t0 t : list event) :
  extends t0 t -> extends t0 (e :: t).
Proof. intros [l ->]. exists (e :: l). reflexivity. Qed.

Lemma extends_keeps (e : event) (t0 t : list event) :
  extends t0 t -> In e t0 -> In e t.
Proof. intros [l ->] Hin. apply in_or_app. right. exact Hin. Qed.

Lemma extends_trans (t0 t1 t2 : list event) :
  extends t0 t1 -> extends t1 t2 -> extends t0 t2.
Proof.
  intros [l1 ->] [l2 ->]. exists (l2 ++ l1). rewrite app_assoc. reflexivity.
Qed.

Ltac grow := repeat first [apply extends_refl | apply extends_cons].

#[local] Arguments u8 : simpl never.
#[local] Arguments load32 : simpl never.
#[local] Arguments part_at : simpl never.
#[local] Arguments wrap_off : simpl never.
#[local] Arguments wrap_u32 : simpl never.
#[local] Arguments firstn : simpl never.
#[local] Arguments Z.mul : simpl never.
#[local] Arguments Z.add : simpl never.
#[local] Arguments Z.sub : simpl never.
#[local] Arguments Z.ltb : simpl never.
#[local] Arguments Z.gtb : simpl never.
#[local] Arguments Z.geb : simpl never.
#[local] Arguments Z.eqb : simpl never.
#[local] Arguments Z.leb : simpl never.
#[local] Arguments Z.pow : simpl never.

(** Symbolic execution of a monadic computation: unfold the monad, then
    split on the innermost test the run [E] is stuck on. *)
Ltac unfold_monad :=
  unfold open, read, close, fprintf, log, sys, modify, get, pure, bind,
    abort, undefined, out_of_fuel in *.

Ltac case_step E :=
  match type of E with
  | context [match ?x with _ => _ end] =>
      lazymatch x with
      | context [match _ with _ => _ end] => fail
      | _ => let Q := fresh "Q" in destruct x eqn:Q
      end
  end.

Ltac reflect_bool :=
  repeat match goal with
  | Hb : (_ || _) = false |- _ => apply orb_false_iff in Hb; destruct Hb
  | Hb : (_ && _) = true |- _ => apply andb_true_iff in Hb; destruct Hb
  | Hb : negb _ = true |- _ => apply negb_true_iff in Hb
  | Hb : negb _ = false |- _ => apply negb_false_iff in Hb
  | Hb : (_ <? _) = true |- _ => apply Z.ltb_lt in Hb
  | Hb : (_ <? _) = false |- _ => apply Z.ltb_ge in Hb
  | Hb : (_ <=? _) = true |- _ => apply Z.leb_le in Hb
  | Hb : (_ <=? _) = false |- _ => apply Z.leb_gt in Hb
  | Hb : (_ >? _) = true |- _ => rewrite Z.gtb_ltb in Hb
  | Hb : (_ >? _) = false |- _ => rewrite Z.gtb_ltb in Hb
  | Hb : (_ >=? _) = true |- _ => rewrite Z.geb_leb in Hb
  | Hb : (_ >=? _) = false |- _ => rewrite Z.geb_leb in Hb
  | Hb : (_ =? _) = true |- _ => apply Z.eqb_eq in Hb
  | Hb : (_ =? _) = false |- _ => apply Z.eqb_neq in Hb
  end.

(** An event predicate that is blind to the shim's plain I/O. *)
Ltac blind := let e := fresh "e" in let He := fresh "He" in
  intros e He; destruct e; simpl in *; congruence.

Ltac case_goal :=
  match goal with
  | |- context [match ?x with _ => _ end] =>
      lazymatch x with
      | context [match _ with _ => _ end] => fail
      | _ => let Q := fresh "Q" in destruct x eqn:Q
      end
  end.

Ltac splits := repeat match goal with |- _ /\ _ => split end.

Ltac run E := simpl in E; repeat (case_step E; simpl in E).

Ltac finish E := inversion E; subst; clear E; simpl.

(** ** get_partition *)

Section Facts.

Context {OS : Type} (H : host OS).

Lemma part_at_defined (mbr : list byte) (part_num : Z) :
  List.length mbr = 512%nat -> part_num < 4 ->
  part_at mbr (446 + (part_num - 1) * 16) = None -> part_num < 1.
Proof.
  intros Hlen Hlt. unfold part_at. rewrite Hlen.
  destruct (_ && _) eqn:Hb; [discriminate |]. intros _.
  apply andb_false_iff in Hb. destruct Hb as [Hb | Hb]; apply Z.leb_gt in Hb; lia.
Qed.

(** What [get_partition] never touches, whatever the file holds. *)
Lemma get_partition_frame (name : string) (part_num : Z)
    (s s' : process OS) (o : outcome Z) :
  get_partition H name part_num s = (o, s') ->
  same_globals s s' /\
  (forall p, (forall e, is_io e = true -> p e = false) ->
             count p (trace s') = count p (trace s)) /\
  (o = Ret 0 -> window_ok s') /\
  (o <> Ret 0 -> same_window s s') /\
  (o = Ret 0 \/ o = Ret (-1) \/ (o = Stop Undefined /\ part_num < 1)) /\
  extends (trace s) (trace s').
Proof.
  intros E. unfold get_partition in E. unfold_monad. run E; finish E.
  all: unfold same_globals, same_window; simpl.
  all: repeat match goal with |- _ /\ _ => split end; auto.
  all: try solve [grow].
  all: try (intros q Hq; rewrite ?count_cons, ?Hq by reflexivity; reflexivity).
  all: try (intros Hne; exfalso; apply Hne; reflexivity).
  all: try tauto.
  all: try discriminate.
  - intros _. unfold window_ok; simpl.
    pose proof (wrap_u32_range (htole32 (start_lba p) * 512)).
    pose proof (wrap_u32_range (htole32 (num_sectors p) * 512)).
    rewrite wrap_off_small by (unfold OFF_MAX; lia). lia.
  - right; right. split; [reflexivity |].
    apply negb_false_iff, Z.eqb_eq in Q3.
    apply (part_at_defined (firstn 512 l)); [lia | lia | assumption].
Qed.

Lemma part_at_fields (mbr : list byte) (off : Z) (p : part_t) :
  part_at mbr off = Some p ->
  start_lba p = load32 mbr (off + 8) /\ num_sectors p = load32 mbr (off + 12).
Proof.
  unfold part_at. destruct (_ && _); [| discriminate].
  intros E. inversion E; subst. simpl. split; reflexivity.
Qed.

Lemma get_partition_detected (name : string) (part_num : Z)
    (s s' : process OS) :
  get_partition H name part_num s = (Ret 0, s') ->
  In (EvStderr (MsgPartitionDetected (partition_base_bytes s')
                                     (partition_size_bytes s')))
     (trace s').
Proof.
  intros E. unfold get_partition in E. unfold_monad. run E.
  all: try discriminate.
  finish E. right. left. reflexivity.
Qed.

(** A [get_partition] that returns 0 has read 512 signed bytes from the
    file it opened, once, and has left the window computed from them. *)
Lemma get_partition_resolves (name : string) (part_num : Z)
    (s s' : process OS) :
  get_partition H name part_num s = (Ret 0, s') ->
  exists bytes o2,
    0 <= fst (sys_open H name (os s)) /\
    sys_read H (fst (sys_open H name (os s))) (snd (sys_open H name (os s)))
      = (Some bytes, o2) /\
    List.length (firstn 512 bytes) = 512%nat /\
    u8 (firstn 512 bytes) 510 = 85 /\ u8 (firstn 512 bytes) 511 = 170 /\
    In (EvRead (fst (sys_open H name (os s)))) (trace s') /\
    count is_read (trace s') = S (count is_read (trace s)) /\
    resolved_from (firstn 512 bytes) part_num s'.
Proof.
  intros E. unfold get_partition in E. unfold_monad. run E.
  all: try discriminate.
  finish E.
  match goal with
  | Q : part_at _ _ = Some _ |- _ =>
      apply part_at_fields in Q; destruct Q as [Qa Qb];
      unfold htole32 in *; rewrite ?Qa, ?Qb in *
  end.
  reflect_bool.
  match goal with
  | Q : sys_read H _ _ = (Some ?l, ?o) |- _ => exists l, o
  end.
  unfold resolved_from; simpl. rewrite ?count_cons; simpl.
  splits; try assumption; try reflexivity; try lia.
  - right. right. left. reflexivity.
  - apply wrap_off_small.
    match goal with
    | |- _ <= wrap_u32 ?a + wrap_u32 ?b <= _ =>
        pose proof (wrap_u32_range a); pose proof (wrap_u32_range b)
    end.
    unfold OFF_MAX. lia.
Qed.

(** [get_partition] on a file whose first 512 bytes are [mbr], case by
    case as the function tests them. *)
Lemma get_partition_on_sector (name : string) (part_num : Z)
    (mbr : list byte) (s : process OS) :
  reads_sector H name (os s) mbr ->
  (u8 mbr 510 <> 85 \/ u8 mbr 511 <> 170 ->
   fst (get_partition H name part_num s) = Ret (-1) /\
   same_window s (snd (get_partition H name part_num s)) /\
   In (EvStderr (MsgSignatureMissing (u8 mbr 510) (u8 mbr 511)))
      (trace (snd (get_partition H name part_num s)))) /\
  (u8 mbr 510 = 85 -> u8 mbr 511 = 170 ->
   (4 <= part_num ->
    fst (get_partition H name part_num s) = Ret (-1) /\
    same_window s (snd (get_partition H name part_num s)) /\
    In (EvStderr MsgExtended) (trace (snd (get_partition H name part_num s)))) /\
   (1 <= part_num < 4 ->
    (load32 mbr (446 + (part_num - 1) * 16 + 8) = 0 \/
     load32 mbr (446 + (part_num - 1) * 16 + 12) = 0 ->
     fst (get_partition H name part_num s) = Ret (-1) /\
     same_window s (snd (get_partition H name part_num s))) /\
    (load32 mbr (446 + (part_num - 1) * 16 + 8) <> 0 ->
     load32 mbr (446 + (part_num - 1) * 16 + 12) <> 0 ->
     fst (get_partition H name part_num s) = Ret 0 /\
     partition_base_bytes (snd (get_partition H name part_num s))
       = wrap_u32 (load32 mbr (446 + (part_num - 1) * 16 + 8) * 512) /\
     partition_size_bytes (snd (get_partition H name part_num s))
       = wrap_u32 (load32 mbr (446 + (part_num - 1) * 16 + 12) * 512) /\
     partition_end_bytes (snd (get_partition H name part_num s))
       = wrap_u32 (load32 mbr (446 + (part_num - 1) * 16 + 8) * 512)
         + wrap_u32 (load32 mbr (446 + (part_num - 1) * 16 + 12) * 512)))).
Proof.
  intros (fd & o1 & bytes & o2 & Hopen & Hfd & Hread & Hfirst & Hlen).
  destruct (get_partition H name part_num s) as [o s'] eqn:E.
  unfold get_partition in E. unfold_monad. simpl in E.
  rewrite Hopen in E. simpl in E.
  destruct (fd <? 0) eqn:Hneg; [reflect_bool; lia |].
  simpl in E. rewrite Hread in E. simpl in E. rewrite Hfirst, Hlen in E.
  change (Z.of_nat 512 =? 512) with true in E. simpl in E.
  run E; finish E; unfold same_window; simpl.
  all: try match goal with
       | Q : part_at _ _ = Some _ |- _ =>
           apply part_at_fields in Q; destruct Q as [Qa Qb];
           unfold htole32 in *; rewrite ?Qa, ?Qb in *
       end.
  all: try match goal with
       | Q : part_at _ _ = None |- _ =>
           apply part_at_defined in Q; [| exact Hlen | reflect_bool; lia]
       end.
  all: reflect_bool.
  all: splits; intros; splits; intros; splits; auto; try lia; try tauto.
  all: try (exfalso; tauto).
  all: try (left; reflexivity).
  all: try (right; left; reflexivity).
  intros _ _. splits; try reflexivity.
  apply wrap_off_small.
  pose proof (wrap_u32_range
                (load32 (firstn 512 bytes) (446 + (part_num - 1) * 16 + 8) * 512)).
  pose proof (wrap_u32_range
                (load32 (firstn 512 bytes) (446 + (part_num - 1) * 16 + 12) * 512)).
  unfold OFF_MAX. lia.
Qed.

(** ** init *)

#[local] Arguments get_partition : simpl never.
#[local] Arguments lseek_switch : simpl never.

(** A call of [init] that finds the flag set does nothing but return. *)
Lemma init_fuel_ready (n : nat) (s : process OS) :
  initialized s = true ->
  init_fuel H (S n) s = (Ret tt, set_trace (EvInit true :: trace s) s).
Proof.
  intros Hflag. simpl. unfold_monad. simpl. rewrite Hflag. reflexivity.
Qed.

(** The body of [init], run from a clear flag with two levels of fuel. *)
Lemma init_fuel_body (n : nat) (s s' : process OS) (o : outcome unit) :
  initialized s = false ->
  init_fuel H (S (S n)) s = (o, s') ->
  initialized s' = true /\
  real_lseek s' = real_lseek s /\ real_stat s' = real_stat s /\
  errno s' = errno s /\
  (forall f, real_fstat s = Some f -> real_fstat s' = Some f) /\
  count is_init_body (trace s') = S (count is_init_body (trace s)) /\
  count is_real_lseek (trace s') = count is_real_lseek (trace s) /\
  count is_real_xstat (trace s') = count is_real_xstat (trace s) /\
  count (is_dlsym "lseek") (trace s') = count (is_dlsym "lseek") (trace s) /\
  count (is_dlsym "__xstat") (trace s') = count (is_dlsym "__xstat") (trace s) /\
  (count (is_dlsym "__fxstat") (trace s') <=
     count (is_dlsym "__fxstat") (trace s) + (1 - resolved (real_fstat s)))%nat /\
  (o = Ret tt ->
     window_ok s' /\
     (count (is_dlsym "__fxstat") (trace s') + resolved (real_fstat s) =
      count (is_dlsym "__fxstat") (trace s) + resolved (real_fstat s'))%nat) /\
  (o = Ret tt \/ o = Stop Aborted) /\
  extends (EvInit false :: trace s) (trace s').
Proof.
  intros Hflag E. simpl in E. unfold __fxstat_with, fixup_statbuf in E.
  unfold_monad. rewrite Hflag in E. run E.
  all: repeat match goal with
       | Q : get_partition _ _ _ _ = _ |- _ =>
           apply get_partition_frame in Q;
           destruct Q as ((? & ? & ? & ? & ? & ? & ?) & Hc & Hok & ? & Hres & Hext)
       end.
  all: finish E; simpl in *.
  all: repeat match goal with |- _ /\ _ => split end.
  all: try congruence.
  all: try solve [grow].
  all: try solve [grow; eapply extends_trans; [| exact Hext]; grow].
  all: try (rewrite ?count_cons, ?Hc by blind; simpl; rewrite ?count_cons;
            simpl; lia).
  all: try (right; reflexivity).
  all: try (left; reflexivity).
  all: destruct Hres as [Hres | [Hres | [Hres Hlt]]]; try discriminate.
  all: try (reflect_bool; lia).
  all: try (inversion Hres; subst; reflect_bool; lia).
  all: intros _; split; [apply Hok; assumption |].
  all: rewrite Hc by blind; rewrite ?count_cons; simpl.
  all: repeat match goal with
       | Hp : real_fstat _ = _ |- _ => rewrite Hp
       end; simpl; lia.
Qed.

(** [init] returns only when [get_partition] has returned 0 for the file
    and the index of the environment. *)
Lemma init_returns_after_resolution (s s' : process OS) :
  initialized s = false ->
  init H s = (Ret tt, s') ->
  exists name str sg,
    getenv H "P_FILE" = Some name /\ getenv H "P_NUM" = Some str /\
    1 <= atoi H str <= 8 /\
    get_partition H name (atoi H str) sg = (Ret 0, s').
Proof.
  unfold init. intros Hflag E. simpl in E.
  unfold __fxstat_with, fixup_statbuf in E.
  unfold_monad. rewrite Hflag in E. run E.
  all: try discriminate.
  all: finish E.
  all: match goal with
       | Q : get_partition _ _ _ ?sg = (Ret ?a, _) |- _ =>
           pose proof (get_partition_frame _ _ _ _ _ Q) as (_ & _ & _ & _ & Hres & _);
           destruct Hres as [Hres | [Hres | [Hres _]]];
           inversion Hres; subst; reflect_bool; try lia;
           eexists _, _, sg; splits; try eassumption; try reflexivity; try lia
       end.
Qed.

(** When [init] does not return, the window is as it was. *)
Lemma init_stop_keeps_window (s s' : process OS) (f : failure) :
  init H s = (Stop f, s') -> same_window s s'.
Proof.
  unfold init. intros E. simpl in E.
  unfold __fxstat_with, fixup_statbuf in E.
  unfold_monad. run E.
  all: try discriminate.
  all: repeat match goal with
       | Q : get_partition _ _ _ _ = _ |- _ =>
           apply get_partition_frame in Q;
           destruct Q as (_ & _ & _ & Hsame & Hres & _)
       end.
  all: finish E.
  all: try (unfold same_window; simpl; splits; reflexivity).
  all: try (destruct Hres as [Hres | [Hres | [Hres _]]]; inversion Hres; subst;
            reflect_bool; try lia).
  all: try (apply Hsame; discriminate).
  all: try (unfold same_window in *; simpl in *; apply Hsame; discriminate).
Qed.

Lemma init_keeps_detected (s s' : process OS) :
  init H s = (Ret tt, s') -> detected s -> detected s'.
Proof.
  intros E Hd _. destruct (initialized s) eqn:Hflag.
  - unfold init in E. rewrite init_fuel_ready in E by exact Hflag.
    inversion E; subst; simpl. right. apply Hd. exact Hflag.
  - destruct (init_returns_after_resolution s s' Hflag E)
      as (name & str & sg & _ & _ & _ & Egp).
    apply (get_partition_detected name (atoi H str) sg). exact Egp.
Qed.

(** What a run of the body of [init] that returns leaves behind: the
    identity the real [__fxstat] gave for the file of P_FILE, one read of
    its boot sector, and the window of the entry P_NUM names in it. *)
Lemma init_completes (s s' : process OS) :
  initialized s = false ->
  init H s = (Ret tt, s') ->
  init_completed H s' /\
  count is_read (trace s') = S (count is_read (trace s)).
Proof.
  unfold init. intros Hflag E. simpl in E.
  unfold __fxstat_with, fixup_statbuf in E.
  unfold_monad. rewrite Hflag in E. run E.
  all: try discriminate.
  all: finish E.
  all: match goal with
       | Q : get_partition _ _ _ ?sg = (Ret ?a, _) |- _ =>
           pose proof (get_partition_frame _ _ _ _ _ Q)
             as (Hg & Hc & _ & _ & Hres & Hext);
           destruct Hres as [Hres | [Hres | [Hres _]]];
           inversion Hres; subst; reflect_bool; try lia;
           pose proof (get_partition_resolves _ _ _ _ Q)
             as (bytes & o4 & Ho & Hr & Hlen & H510 & H511 & Hin & Hcnt & Hw)
       end.
  all: simpl in *.
  all: (split; [| rewrite Hcnt, ?count_cons; simpl; lia]).
  all: destruct Hg as (_ & Hdev & Hino & _ & _ & Hf & _); simpl in *.
  all: match goal with
       | Qf : _ _ _ _ _ = (?p, _) |- _ => destruct p as [ret buf]; simpl in *
       end.
  all: match goal with
       | Qn : getenv H "P_FILE" = Some ?name,
         Qs : getenv H "P_NUM" = Some ?str,
         Qo : sys_open H ?name ?o = _,
         Qf : ?f _ _ _ _ = ((?r0, ?b0), ?o2) |- _ =>
           exists name, str, f, o, r0, b0, o2, bytes, o4; rewrite Qo; simpl
       end.
  all: splits; try assumption; try congruence; try lia.
  all: eapply extends_keeps; [exact Hext | simpl; tauto].
Qed.

(** Two levels of fuel are all [init] can use: the nested call made
    through [fstat] runs with the flag set. *)
Lemma init_fuel_enough (n : nat) (s : process OS) :
  init_fuel H (S (S n)) s = init H s.
Proof.
  unfold init. simpl. unfold __fxstat_with, fixup_statbuf. unfold_monad. simpl.
  destruct (initialized s) eqn:Hflag; [reflexivity |].
  repeat first [reflexivity | case_goal; simpl].
Qed.

#[local] Arguments init_fuel : simpl never.

(** [init] as the overrides call it, from either value of the flag. *)
Lemma init_spec (s s' : process OS) (o : outcome unit) :
  init H s = (o, s') ->
  (o = Ret tt \/ o = Stop Aborted) /\
  initialized s' = true /\
  real_lseek s' = real_lseek s /\ real_stat s' = real_stat s /\
  errno s' = errno s /\
  (forall f, real_fstat s = Some f -> real_fstat s' = Some f) /\
  count is_real_lseek (trace s') = count is_real_lseek (trace s) /\
  count is_real_xstat (trace s') = count is_real_xstat (trace s) /\
  count (is_dlsym "lseek") (trace s') = count (is_dlsym "lseek") (trace s) /\
  count (is_dlsym "__xstat") (trace s') = count (is_dlsym "__xstat") (trace s) /\
  (count is_init_body (trace s') =
     count is_init_body (trace s) + (if initialized s then 0 else 1))%nat /\
  (initialized s = true ->
     o = Ret tt /\ same_view s s' /\ real_fstat s' = real_fstat s /\
     count (is_dlsym "__fxstat") (trace s') = count (is_dlsym "__fxstat") (trace s) /\
     count is_real_fxstat (trace s') = count is_real_fxstat (trace s)) /\
  (o = Ret tt ->
     (window_ok s \/ initialized s = false -> window_ok s') /\
     (count (is_dlsym "__fxstat") (trace s') + resolved (real_fstat s) =
      count (is_dlsym "__fxstat") (trace s) + resolved (real_fstat s'))%nat).
Proof.
  unfold init. intros E. destruct (initialized s) eqn:Hflag.
  - rewrite init_fuel_ready in E by exact Hflag. finish E.
    unfold same_view, same_window; simpl. rewrite ?count_cons; simpl.
    repeat match goal with |- _ /\ _ => split end; auto; try lia.
    + intros _. repeat split; reflexivity.
    + intros _. split; [intros [Hw | Hw]; [exact Hw | discriminate] | lia].
  - apply init_fuel_body in E; [| exact Hflag].
    destruct E as (E1 & E2 & E3 & E4 & E5 & E6 & E7 & E8 & E9 & E10 & E11 & E12 & E13 & _).
    repeat match goal with |- _ /\ _ => split end; auto; try lia.
    all: try discriminate.
    intros Ho. apply E12 in Ho. tauto.
Qed.

(** The record of the initialisation stands while the window, the
    identity, the flag and the [__fxstat] pointer do, the log only grows
    and nothing more is read. *)
Lemma completed_keeps (s s' : process OS) :
  same_view s s' -> real_fstat s' = real_fstat s ->
  extends (trace s) (trace s') ->
  count is_read (trace s') = count is_read (trace s) ->
  completed H s -> completed H s'.
Proof.
  unfold completed, same_view, same_window.
  intros ((Hw1 & Hw2 & Hw3) & Hd & Hi & Hfl) Hf Hext Hn [Hc Hr].
  rewrite Hn, Hfl. split; [| exact Hr].
  intros Hflag.
  destruct (Hc Hflag)
    as (name & str & f & o & ret & buf & o2 & bytes & o4 &
        C1 & C2 & C3 & C4 & C5 & C6 & C7 & C8 & C9 & C10 & C11 & C12 &
        C13 & C14 & C15 & C16 & C17).
  exists name, str, f, o, ret, buf, o2, bytes, o4.
  unfold resolved_from in *. rewrite Hw1, Hw2, Hw3, Hd, Hi, Hf.
  splits; try tauto.
  - apply (extends_keeps _ _ _ Hext C10).
  - apply (extends_keeps _ _ _ Hext C16).
Qed.

Lemma init_keeps_completed (s s' : process OS) :
  init H s = (Ret tt, s') -> completed H s -> completed H s'.
Proof.
  intros E Hc. destruct (initialized s) eqn:Hflag.
  - unfold init in E. rewrite init_fuel_ready in E by exact Hflag.
    inversion E; subst. apply (completed_keeps s); try assumption.
    + unfold same_view, same_window; simpl; splits; reflexivity.
    + reflexivity.
    + simpl. grow.
    + simpl. rewrite count_cons. reflexivity.
  - destruct (init_completes s s' Hflag E) as [Hi Hn].
    pose proof (init_spec _ _ _ E) as (_ & Hset & _).
    destruct Hc as [_ Hr]. rewrite Hflag in Hr.
    split; [intros _; exact Hi |].
    rewrite Hn, Hr, Hset. reflexivity.
Qed.

(** ** The first call of an override

    A call that finds its pointer null resolves it and calls [init]; it then
    goes on exactly as a call made in the state [s1] that [init] returned
    in, where the pointer is cached. *)

Lemma inv_after_init (s st s1 : process OS) :
  inv s ->
  window_ok st = window_ok s ->
  initialized s1 = true ->
  (window_ok st \/ initialized st = false -> window_ok s1) ->
  initialized st = initialized s ->
  count (is_dlsym "lseek") (trace s1) = resolved (real_lseek s1) ->
  count (is_dlsym "__xstat") (trace s1) = resolved (real_stat s1) ->
  count (is_dlsym "__fxstat") (trace s1) = resolved (real_fstat s1) ->
  (count is_init_body (trace s1) =
     count is_init_body (trace s) + (if initialized s then 0 else 1))%nat ->
  inv s1.
Proof.
  intros (Hw & _ & _ & _ & Hb & _) Hwst Hflag Hok Hfl Hl Hx Hf Hn.
  unfold inv. repeat split; auto.
  - apply Hok. left. rewrite Hwst. exact Hw.
  - apply Hok. left. rewrite Hwst. exact Hw.
  - apply Hok. left. rewrite Hwst. exact Hw.
  - apply Hok. left. rewrite Hwst. exact Hw.
  - apply Hok. left. rewrite Hwst. exact Hw.
  - rewrite Hn, Hb, Hflag. destruct (initialized s); reflexivity.
  - congruence.
  - congruence.
  - congruence.
Qed.

Lemma lseek_first (fd offset whence : Z) (s : process OS) :
  real_lseek s = None ->
  (exists s', lseek H fd offset whence s = (Stop Aborted, s') /\
              count is_real_lseek (trace s') = count is_real_lseek (trace s))
  \/
  (exists f s1,
      next_lseek H = Some f /\
      lseek H fd offset whence s = lseek H fd offset whence s1 /\
      real_lseek s1 = Some f /\ initialized s1 = true /\
      real_stat s1 = real_stat s /\ errno s1 = errno s /\
      (forall g, real_fstat s = Some g -> real_fstat s1 = Some g) /\
      count is_real_lseek (trace s1) = count is_real_lseek (trace s) /\
      count is_real_xstat (trace s1) = count is_real_xstat (trace s) /\
      (inv s -> inv s1) /\
      (initialized s = true ->
         same_view s s1 /\ real_fstat s1 = real_fstat s /\
         count is_init_body (trace s1) = count is_init_body (trace s) /\
         count is_real_fxstat (trace s1) = count is_real_fxstat (trace s)) /\
      (detected s -> detected s1) /\
      (completed H s -> completed H s1)).
Proof.
  intros Hnull.
  destruct (next_lseek H) as [f |] eqn:Hnext.
  - destruct (init H (set_real_lseek (Some f)
                        (set_trace (EvDlsym "lseek" :: trace s) s)))
      as [o s1] eqn:Ei.
    pose proof (init_spec _ _ _ Ei) as
      (Ho & I1 & I2 & I3 & I4 & I5 & I6 & I7 & I8 & I9 & I10 & I11 & I12).
    simpl in *. rewrite count_cons in I6, I7, I8, I9, I10. simpl in *.
    destruct Ho as [-> | ->].
    + right. exists f, s1. split; [reflexivity |].
      split.
      { unfold lseek. unfold_monad. simpl. rewrite Hnull, Hnext, I2. simpl.
        rewrite Ei. reflexivity. }
      repeat match goal with |- _ /\ _ => split end; auto.
      * intros Hinv. destruct (I12 eq_refl) as [Hok Hfx].
        rewrite ?count_cons in Hfx; simpl in Hfx.
        pose proof Hinv as (Hw & Hl & Hx & Hf & Hb & _).
        apply (inv_after_init s
                 (set_real_lseek (Some f) (set_trace (EvDlsym "lseek" :: trace s) s)));
          auto.
        -- rewrite I2, I8, Hl, Hnull. reflexivity.
        -- rewrite I3, I9. exact Hx.
        -- lia.
      * intros Hflag. destruct (I11 Hflag) as (_ & Hv & Hf & Hc & Hr).
        rewrite ?count_cons in Hr; simpl in Hr.
        unfold same_view, same_window in *; simpl in *.
        repeat split; try tauto. rewrite I10, Hflag. lia.
      * intros Hd. apply (init_keeps_detected _ _ Ei).
        intros Hflag. right. apply Hd. exact Hflag.
      * intros Hd. apply (init_keeps_completed _ _ Ei).
        apply (completed_keeps s); try assumption; simpl.
        -- unfold same_view, same_window; simpl; splits; reflexivity.
        -- reflexivity.
        -- grow.
        -- rewrite count_cons. reflexivity.
    + left. exists s1. split; [| exact I6].
      unfold lseek. unfold_monad. simpl. rewrite Hnull, Hnext. simpl.
      rewrite Ei. reflexivity.
  - left. eexists. split.
    + unfold lseek. unfold_monad. simpl. rewrite Hnull, Hnext. reflexivity.
    + simpl. rewrite !count_cons. reflexivity.
Qed.

Lemma xstat_first (ver : Z) (path : string) (buf : stat) (s : process OS) :
  real_stat s = None ->
  (exists s', __xstat H ver path buf s = (Stop Aborted, s') /\
              count is_real_xstat (trace s') = count is_real_xstat (trace s))
  \/
  (exists f s1,
      next_xstat H = Some f /\
      __xstat H ver path buf s = __xstat H ver path buf s1 /\
      real_stat s1 = Some f /\ initialized s1 = true /\
      real_lseek s1 = real_lseek s /\ errno s1 = errno s /\
      (forall g, real_fstat s = Some g -> real_fstat s1 = Some g) /\
      count is_real_lseek (trace s1) = count is_real_lseek (trace s) /\
      count is_real_xstat (trace s1) = count is_real_xstat (trace s) /\
      (inv s -> inv s1) /\
      (initialized s = true ->
         same_view s s1 /\ real_fstat s1 = real_fstat s /\
         count is_init_body (trace s1) = count is_init_body (trace s) /\
         count is_real_fxstat (trace s1) = count is_real_fxstat (trace s)) /\
      (detected s -> detected s1) /\
      (completed H s -> completed H s1)).
Proof.
  intros Hnull.
  destruct (next_xstat H) as [f |] eqn:Hnext.
  - destruct (init H (set_real_stat (Some f)
                        (set_trace (EvDlsym "__xstat" :: trace s) s)))
      as [o s1] eqn:Ei.
    pose proof (init_spec _ _ _ Ei) as
      (Ho & I1 & I2 & I3 & I4 & I5 & I6 & I7 & I8 & I9 & I10 & I11 & I12).
    simpl in *. rewrite count_cons in I6, I7, I8, I9, I10. simpl in *.
    destruct Ho as [-> | ->].
    + right. exists f, s1. split; [reflexivity |].
      split.
      { unfold __xstat, __xstat_with. unfold_monad. simpl.
        rewrite Hnull, Hnext, I3. simpl. rewrite Ei. reflexivity. }
      repeat match goal with |- _ /\ _ => split end; auto.
      * intros Hinv. destruct (I12 eq_refl) as [Hok Hfx].
        rewrite ?count_cons in Hfx; simpl in Hfx.
        pose proof Hinv as (Hw & Hl & Hx & Hf & Hb & _).
        apply (inv_after_init s
                 (set_real_stat (Some f) (set_trace (EvDlsym "__xstat" :: trace s) s)));
          auto.
        -- rewrite I2, I8. exact Hl.
        -- rewrite I3, I9, Hx, Hnull. reflexivity.
        -- lia.
      * intros Hflag. destruct (I11 Hflag) as (_ & Hv & Hf & Hc & Hr).
        rewrite ?count_cons in Hr; simpl in Hr.
        unfold same_view, same_window in *; simpl in *.
        repeat split; try tauto. rewrite I10, Hflag. lia.
      * intros Hd. apply (init_keeps_detected _ _ Ei).
        intros Hflag. right. apply Hd. exact Hflag.
      * intros Hd. apply (init_keeps_completed _ _ Ei).
        apply (completed_keeps s); try assumption; simpl.
        -- unfold same_view, same_window; simpl; splits; reflexivity.
        -- reflexivity.
        -- grow.
        -- rewrite count_cons. reflexivity.
    + left. exists s1. split; [| exact I7].
      unfold __xstat, __xstat_with. unfold_monad. simpl.
      rewrite Hnull, Hnext. simpl. rewrite Ei. reflexivity.
  - left. eexists. split.
    + unfold __xstat, __xstat_with. unfold_monad. simpl.
      rewrite Hnull, Hnext. reflexivity.
    + simpl. rewrite !count_cons. reflexivity.
Qed.

Lemma fxstat_first (ver fd : Z) (buf : stat) (s : process OS) :
  real_fstat s = None ->
  (exists s', __fxstat H ver fd buf s = (Stop Aborted, s') /\
              (initialized s = true ->
               count is_init_body (trace s') = count is_init_body (trace s)))
  \/
  (exists f s1,
      next_fxstat H = Some f /\
      __fxstat H ver fd buf s = __fxstat H ver fd buf s1 /\
      real_fstat s1 = Some f /\ initialized s1 = true /\
      real_lseek s1 = real_lseek s /\ real_stat s1 = real_stat s /\
      errno s1 = errno s /\
      count is_real_lseek (trace s1) = count is_real_lseek (trace s) /\
      count is_real_xstat (trace s1) = count is_real_xstat (trace s) /\
      (inv s -> inv s1) /\
      (initialized s = true ->
         same_view s s1 /\
         count is_init_body (trace s1) = count is_init_body (trace s) /\
         count is_real_fxstat (trace s1) = count is_real_fxstat (trace s)) /\
      (detected s -> detected s1) /\
      (completed H s -> completed H s1)).
Proof.
  intros Hnull.
  destruct (next_fxstat H) as [f |] eqn:Hnext.
  - destruct (init H (set_real_fstat (Some f)
                        (set_trace (EvDlsym "__fxstat" :: trace s) s)))
      as [o s1] eqn:Ei.
    pose proof (init_spec _ _ _ Ei) as
      (Ho & I1 & I2 & I3 & I4 & I5 & I6 & I7 & I8 & I9 & I10 & I11 & I12).
    simpl in *. rewrite count_cons in I6, I7, I8, I9, I10. simpl in *.
    specialize (I5 f eq_refl).
    destruct Ho as [-> | ->].
    + right. exists f, s1. split; [reflexivity |].
      split.
      { unfold __fxstat, __fxstat_with. unfold_monad. simpl.
        rewrite Hnull, Hnext, I5. simpl. rewrite Ei. reflexivity. }
      repeat match goal with |- _ /\ _ => split end; auto.
      * intros Hinv. destruct (I12 eq_refl) as [Hok Hfx].
        rewrite ?count_cons in Hfx; simpl in Hfx.
        pose proof Hinv as (Hw & Hl & Hx & Hf & Hb & _).
        apply (inv_after_init s
                 (set_real_fstat (Some f) (set_trace (EvDlsym "__fxstat" :: trace s) s)));
          auto.
        -- rewrite I2, I8. exact Hl.
        -- rewrite I3, I9. exact Hx.
        -- rewrite I5 in Hfx |- *. rewrite Hnull in Hf.
           unfold count in *. simpl in *. lia.
      * intros Hflag. destruct (I11 Hflag) as (_ & Hv & Hf & Hc & Hr).
        rewrite ?count_cons in Hr; simpl in Hr.
        unfold same_view, same_window in *; simpl in *.
        repeat split; try tauto. rewrite I10, Hflag. lia.
      * intros Hd. apply (init_keeps_detected _ _ Ei).
        intros Hflag. right. apply Hd. exact Hflag.
      * intros [Hc Hr]. apply (init_keeps_completed _ _ Ei).
        split; simpl.
        -- intros Hflag.
           destruct (Hc Hflag)
             as (? & ? & f0 & ? & ? & ? & ? & ? & ? & _ & _ & _ & _ & Hf0 & _).
           congruence.
        -- rewrite count_cons. exact Hr.
    + left. exists s1. split.
      * unfold __fxstat, __fxstat_with. unfold_monad. simpl.
        rewrite Hnull, Hnext. simpl. rewrite Ei. reflexivity.
      * intros Hflag. destruct (I11 Hflag) as (Habs & _). discriminate.
  - left. eexists. split.
    + unfold __fxstat, __fxstat_with. unfold_monad. simpl.
      rewrite Hnull, Hnext. reflexivity.
    + intros _. simpl. rewrite !count_cons. reflexivity.
Qed.

(** ** A call that finds its pointer cached *)

Ltac settle :=
  unfold settled, same_view, same_window; simpl;
  repeat match goal with |- _ /\ _ => split end;
  try reflexivity;
  try (intros name; rewrite ?count_cons; reflexivity);
  try (rewrite ?count_cons; reflexivity);
  try solve [grow].

Lemma lseek_ready_settled (fd offset whence : Z) (f : real_lseek_t)
    (s s' : process OS) (o : outcome Z) :
  real_lseek s = Some f ->
  lseek H fd offset whence s = (o, s') -> settled s s'.
Proof.
  intros Hf E. unfold lseek in E. unfold_monad. simpl in E. rewrite Hf in E.
  run E; finish E; settle.
Qed.

Lemma xstat_ready_settled (ver : Z) (path : string) (buf : stat)
    (f : real_stat_t) (s s' : process OS) (o : outcome (Z * stat)) :
  real_stat s = Some f ->
  __xstat H ver path buf s = (o, s') -> settled s s'.
Proof.
  intros Hf E. unfold __xstat, __xstat_with, fixup_statbuf in E.
  unfold_monad. simpl in E. rewrite Hf in E.
  run E; finish E; settle.
Qed.

Lemma fxstat_ready_settled (ver fd : Z) (buf : stat)
    (f : real_fstat_t) (s s' : process OS) (o : outcome (Z * stat)) :
  real_fstat s = Some f ->
  __fxstat H ver fd buf s = (o, s') -> settled s s'.
Proof.
  intros Hf E. unfold __fxstat, __fxstat_with, fixup_statbuf in E.
  unfold_monad. simpl in E. rewrite Hf in E.
  run E; finish E; settle.
Qed.

Lemma perform_ready_settled (c : call) (s s' : process OS) (o : outcome answer) :
  cached c s -> perform H c s = (o, s') -> settled s s'.
Proof.
  destruct c as [fd off w | ver path buf | ver fd buf | fd mode off len];
    simpl; unfold bind, pure; intros Hc E.
  - destruct (real_lseek s) as [f |] eqn:Hf; [| contradiction].
    destruct (lseek H fd off w s) as [o1 s1] eqn:E1.
    apply (lseek_ready_settled _ _ _ _ _ _ _ Hf) in E1.
    destruct o1; inversion E; subst; exact E1.
  - destruct (real_stat s) as [f |] eqn:Hf; [| contradiction].
    destruct (__xstat H ver path buf s) as [o1 s1] eqn:E1.
    apply (xstat_ready_settled _ _ _ _ _ _ _ Hf) in E1.
    destruct o1; inversion E; subst; exact E1.
  - destruct (real_fstat s) as [f |] eqn:Hf; [| contradiction].
    destruct (__fxstat H ver fd buf s) as [o1 s1] eqn:E1.
    apply (fxstat_ready_settled _ _ _ _ _ _ _ Hf) in E1.
    destruct o1; inversion E; subst; exact E1.
  - unfold fallocate, pure in E. inversion E; subst. settle.
Qed.

(** A call that finds its pointer cached reads nothing itself. *)
Lemma perform_ready_reads_nothing (c : call) (s s' : process OS)
    (o : outcome answer) :
  cached c s -> perform H c s = (o, s') ->
  count is_read (trace s') = count is_read (trace s).
Proof.
  destruct c as [fd off w | ver path buf | ver fd buf | fd mode off len];
    simpl; intros Hc E.
  - destruct (real_lseek s) as [f |] eqn:Hf; [| contradiction].
    unfold lseek in E. unfold_monad. simpl in E. rewrite Hf in E.
    run E; finish E; rewrite ?count_cons; reflexivity.
  - destruct (real_stat s) as [f |] eqn:Hf; [| contradiction].
    unfold __xstat, __xstat_with, fixup_statbuf in E.
    unfold_monad. simpl in E. rewrite Hf in E.
    run E; finish E; rewrite ?count_cons; reflexivity.
  - destruct (real_fstat s) as [f |] eqn:Hf; [| contradiction].
    unfold __fxstat, __fxstat_with, fixup_statbuf in E.
    unfold_monad. simpl in E. rewrite Hf in E.
    run E; finish E; rewrite ?count_cons; reflexivity.
  - unfold fallocate in E. unfold_monad. inversion E; subst. reflexivity.
Qed.

Lemma settled_completed (s s' : process OS) :
  settled s s' ->
  count is_read (trace s') = count is_read (trace s) ->
  completed H s -> completed H s'.
Proof.
  intros (Hv & _ & _ & Hf & _ & _ & Hext) Hn.
  apply completed_keeps; assumption.
Qed.

Lemma settled_inv (s s' : process OS) : settled s s' -> inv s -> inv s'.
Proof.
  unfold settled, same_view, same_window, inv, window_ok.
  intros (((Hw1 & Hw2 & Hw3) & Hd & Hi & Hfl) & Hl & Hx & Hf & Hn & Hb & _)
         (Hw & Il & Ix & If & Ib & Inull).
  rewrite Hw1, Hw2, Hw3, Hl, Hx, Hf, !Hn, Hb, Hfl.
  repeat split; try tauto.
Qed.

(** ** Runs of calls *)

Lemma perform_first (c : call) (s : process OS) :
  ~ cached c s ->
  (exists s', perform H c s = (Stop Aborted, s'))
  \/
  (exists s1,
      cached c s1 /\ perform H c s = perform H c s1 /\
      initialized s1 = true /\
      (inv s -> inv s1) /\
      (initialized s = true ->
         same_view s s1 /\
         count is_init_body (trace s1) = count is_init_body (trace s)) /\
      (forall f, real_lseek s = Some f -> real_lseek s1 = Some f) /\
      (forall f, real_stat s = Some f -> real_stat s1 = Some f) /\
      (forall f, real_fstat s = Some f -> real_fstat s1 = Some f) /\
      (detected s -> detected s1) /\
      (completed H s -> completed H s1)).
Proof.
  destruct c as [fd off w | ver path buf | ver fd buf | fd mode off len];
    simpl; intros Hc.
  - destruct (real_lseek s) eqn:Hnull; [exfalso; apply Hc; discriminate |].
    destruct (lseek_first fd off w s Hnull)
      as [(s' & E & _) | (f & s1 & _ & E & F1 & F2 & F3 & F4 & F5 & F6 & F7 & F8 & F9 & F10 & F11)].
    + left. exists s'. unfold bind. rewrite E. reflexivity.
    + right. exists s1. unfold bind. rewrite E, F1, F3.
      splits; auto; try discriminate; intros Hflag; pose proof (F9 Hflag); tauto.
  - destruct (real_stat s) eqn:Hnull; [exfalso; apply Hc; discriminate |].
    destruct (xstat_first ver path buf s Hnull)
      as [(s' & E & _) | (f & s1 & _ & E & F1 & F2 & F3 & F4 & F5 & F6 & F7 & F8 & F9 & F10 & F11)].
    + left. exists s'. unfold bind. rewrite E. reflexivity.
    + right. exists s1. unfold bind. rewrite E, F1, F3.
      splits; auto; try discriminate; intros Hflag; pose proof (F9 Hflag); tauto.
  - destruct (real_fstat s) eqn:Hnull; [exfalso; apply Hc; discriminate |].
    destruct (fxstat_first ver fd buf s Hnull)
      as [(s' & E & _) | (f & s1 & _ & E & F1 & F2 & F3 & F4 & F5 & F6 & F7 & F8 & F9 & F10 & F11)].
    + left. exists s'. unfold bind. rewrite E. reflexivity.
    + right. exists s1. unfold bind. rewrite E, F1, F3, F4.
      splits; auto; try discriminate; intros Hflag; pose proof (F9 Hflag); tauto.
  - exfalso. apply Hc. exact I.
Qed.

Lemma cached_dec (c : call) (s : process OS) : cached c s \/ ~ cached c s.
Proof.
  destruct c; simpl.
  - destruct (real_lseek s); [left; discriminate | right; intros Hn; apply Hn; reflexivity].
  - destruct (real_stat s); [left; discriminate | right; intros Hn; apply Hn; reflexivity].
  - destruct (real_fstat s); [left; discriminate | right; intros Hn; apply Hn; reflexivity].
  - left. exact I.
Qed.

Lemma perform_inv (c : call) (a : answer) (s s' : process OS) :
  inv s -> perform H c s = (Ret a, s') -> inv s'.
Proof.
  intros Hinv E. destruct (cached_dec c s) as [Hc | Hc].
  - apply (settled_inv s); [| exact Hinv].
    apply (perform_ready_settled c s s' (Ret a)); assumption.
  - destruct (perform_first c s Hc) as [(s0 & E0) | (s1 & Hc1 & E1 & _ & Hi & _)].
    + rewrite E0 in E. discriminate.
    + rewrite E1 in E. apply (settled_inv s1); [| apply Hi; exact Hinv].
      apply (perform_ready_settled c s1 s' (Ret a)); assumption.
Qed.

Lemma startup_inv (o : OS) : inv (startup o).
Proof.
  unfold inv, window_ok, count; simpl. repeat split; try lia; try reflexivity.
Qed.

Lemma reachable_inv (s : process OS) : reachable H s -> inv s.
Proof.
  induction 1 as [o | s c a s' Hr IH E].
  - apply startup_inv.
  - apply (perform_inv c a s); assumption.
Qed.

Lemma settled_detected (s s' : process OS) :
  settled s s' -> detected s -> detected s'.
Proof.
  unfold settled, same_view, same_window, detected.
  intros (((Hw1 & Hw2 & Hw3) & _ & _ & Hfl) & _ & _ & _ & _ & _ & [l Hext]) Hd Hflag.
  rewrite Hw1, Hw2, Hext. apply in_or_app. right. apply Hd.
  rewrite <- Hfl. exact Hflag.
Qed.

Lemma reachable_detected (s : process OS) : reachable H s -> detected s.
Proof.
  induction 1 as [o | s c a s' Hr IH E].
  - intros Hflag. discriminate.
  - destruct (cached_dec c s) as [Hc | Hc].
    + apply (settled_detected s); [| exact IH].
      apply (perform_ready_settled c s s' (Ret a)); assumption.
    + destruct (perform_first c s Hc)
        as [(s0 & E0) | (s1 & Hc1 & E1 & _ & _ & _ & _ & _ & _ & Hd & _)].
      * rewrite E0 in E. discriminate.
      * rewrite E1 in E. apply (settled_detected s1); [| apply Hd; exact IH].
        apply (perform_ready_settled c s1 s' (Ret a)); assumption.
Qed.

(** Between two calls of a live process the flag is set only with the
    initialisation on record, and the boot sector was read once if the
    flag is set and never if it is clear. *)
Lemma reachable_completed (s : process OS) : reachable H s -> completed H s.
Proof.
  induction 1 as [o | s c a s' Hr IH E].
  - split; [intros Hflag; discriminate | reflexivity].
  - destruct (cached_dec c s) as [Hc | Hc].
    + apply (settled_completed s); [| | exact IH].
      * apply (perform_ready_settled c s s' (Ret a)); assumption.
      * apply (perform_ready_reads_nothing c s s' (Ret a)); assumption.
    + destruct (perform_first c s Hc)
        as [(s0 & E0) | (s1 & Hc1 & E1 & _ & _ & _ & _ & _ & _ & _ & Hd)].
      * rewrite E0 in E. discriminate.
      * rewrite E1 in E. apply (settled_completed s1); [| | apply Hd; exact IH].
        -- apply (perform_ready_settled c s1 s' (Ret a)); assumption.
        -- apply (perform_ready_reads_nothing c s1 s' (Ret a)); assumption.
Qed.

(** ** fallocate *)

(** C9: for every file descriptor, mode, offset and length, the preallocate
    override reports success; it allocates nothing, checks nothing and
    calls nothing: the process, the state behind the host and the log are
    left exactly as they were. *)
Theorem fallocate_reports_success (fd mode offset len : Z) (s : process OS) :
  fallocate fd mode offset len s = (Ret 0, s).
Proof. reflexivity. Qed.

(** ** lseek with a whence it does not know *)

Lemma lseek_switch_default (offset whence : Z) (s : process OS) :
  whence <> SEEK_SET -> whence <> SEEK_CUR -> whence <> SEEK_END ->
  lseek_switch offset whence s = None.
Proof.
  intros H0 H1 H2. unfold lseek_switch.
  apply Z.eqb_neq in H0, H1, H2. rewrite H0, H1, H2. reflexivity.
Qed.

Lemma lseek_ready_default (fd offset whence : Z) (s : process OS) :
  real_lseek s <> None -> lseek_switch offset whence s = None ->
  lseek H fd offset whence s = (Ret (-1), set_errno EINVAL s).
Proof.
  intros Hf Hsw. unfold lseek. unfold_monad. simpl.
  destruct (real_lseek s); [| contradiction]. simpl. rewrite Hsw. reflexivity.
Qed.

(** C8: a seek whose whence is none of SEEK_SET, SEEK_CUR and SEEK_END
    makes no call of the real seek and fails with -1 and errno EINVAL.  With
    the pointer cached that is all the call does; a first call resolves and
    initialises before it reaches the switch, and a failure there aborts
    the process. *)
Theorem lseek_invalid_whence (fd offset whence : Z) (s : process OS) :
  whence <> SEEK_SET -> whence <> SEEK_CUR -> whence <> SEEK_END ->
  count is_real_lseek (trace (snd (lseek H fd offset whence s)))
    = count is_real_lseek (trace s) /\
  ((fst (lseek H fd offset whence s) = Ret (-1) /\
    errno (snd (lseek H fd offset whence s)) = EINVAL)
   \/ (fst (lseek H fd offset whence s) = Stop Aborted /\ real_lseek s = None)) /\
  (real_lseek s <> None ->
   lseek H fd offset whence s = (Ret (-1), set_errno EINVAL s)).
Proof.
  intros H0 H1 H2.
  destruct (real_lseek s) as [f |] eqn:Hf.
  - assert (Hs : real_lseek s <> None) by (rewrite Hf; discriminate).
    rewrite (lseek_ready_default fd offset whence s Hs
               (lseek_switch_default offset whence s H0 H1 H2)).
    simpl. splits; auto.
  - destruct (lseek_first fd offset whence s Hf)
      as [(s' & E & Hc) | (f & s1 & _ & E & F1 & _ & _ & _ & _ & F6 & _)].
    + rewrite E. simpl. splits; auto. intros Hn; exfalso; apply Hn; reflexivity.
    + assert (Hs : real_lseek s1 <> None) by (rewrite F1; discriminate).
      rewrite E, (lseek_ready_default fd offset whence s1 Hs
                    (lseek_switch_default offset whence s1 H0 H1 H2)).
      simpl. splits; auto. intros Hn; exfalso; apply Hn; reflexivity.
Qed.

(** ** init is not re-entered *)

(** C10: [init] sets the flag before it does anything else, so whatever it
    calls runs with the flag set.  From a clear flag the log of one call of
    [init] starts with the one entry that found the flag clear, and every
    entry after it, the nested one made through [fstat] and [__fxstat]
    included, found it set; such an entry returns at once, so [__fxstat]
    called with the flag set never runs the body, and two levels of calls
    are all there are. *)
Theorem init_never_reentered (s : process OS) :
  initialized s = false ->
  (exists later,
      trace (snd (init H s)) = later ++ EvInit false :: trace s /\
      count is_init_body later = 0%nat) /\
  initialized (snd (init H s)) = true /\
  (fst (init H s) = Ret tt \/ fst (init H s) = Stop Aborted) /\
  (forall n, init_fuel H (S (S n)) s = init H s) /\
  (forall s2 : process OS,
      initialized s2 = true ->
      init H s2 = (Ret tt, set_trace (EvInit true :: trace s2) s2) /\
      forall ver fd buf,
        count is_init_body (trace (snd (__fxstat H ver fd buf s2)))
        = count is_init_body (trace s2)).
Proof.
  intros Hflag.
  destruct (init H s) as [o s'] eqn:E. simpl.
  pose proof E as E'. unfold init in E'.
  apply init_fuel_body in E'; [| exact Hflag].
  destruct E' as (E1 & _ & _ & _ & _ & E6 & _ & _ & _ & _ & _ & _ & E13 & [later E14]).
  splits.
  - exists later. split; [exact E14 |].
    rewrite E14, count_app, count_cons in E6. simpl in E6. lia.
  - exact E1.
  - exact E13.
  - intros n. rewrite init_fuel_enough. exact E.
  - intros s2 Hflag2. split; [apply init_fuel_ready; exact Hflag2 |].
    intros ver fd buf.
    destruct (real_fstat s2) as [f |] eqn:Hf.
    + destruct (__fxstat H ver fd buf s2) as [o2 s3] eqn:E2.
      apply (fxstat_ready_settled _ _ _ _ _ _ _ Hf) in E2.
      destruct E2 as (_ & _ & _ & _ & _ & Hb & _). exact Hb.
    + destruct (fxstat_first ver fd buf s2 Hf)
        as [(s3 & E2 & Hb) | (f & s3 & _ & E2 & F1 & _ & _ & _ & _ & _ & _ & _ & F9 & _)].
      * rewrite E2. simpl. apply Hb. exact Hflag2.
      * rewrite E2. destruct (F9 Hflag2) as (_ & Hb & _).
        destruct (__fxstat H ver fd buf s3) as [o2 s4] eqn:E3.
        apply (fxstat_ready_settled _ _ _ _ _ _ _ F1) in E3.
        destruct E3 as (_ & _ & _ & _ & _ & Hb' & _). simpl. rewrite Hb'. exact Hb.
Qed.

(** ** Lazy resolution and one-time initialisation *)

Lemma cached_initialized (c : call) (s : process OS) :
  inv s -> cached c s ->
  match c with
  | CallFallocate _ _ _ _ => True
  | _ => initialized s = true /\ window_ok s
  end.
Proof.
  intros (Hw & _ & _ & _ & _ & Hnull) Hc.
  destruct c; simpl in *; try exact I.
  all: split; [| exact Hw].
  all: destruct (initialized s); [reflexivity |].
  all: destruct (Hnull eq_refl) as (Hl & Hx & Hf); congruence.
Qed.

Lemma cached_completed (c : call) (s : process OS) :
  inv s -> completed H s -> cached c s ->
  match c with
  | CallFallocate _ _ _ _ => True
  | _ => initialized s = true /\ window_ok s /\ init_completed H s /\
         count is_read (trace s) = 1%nat
  end.
Proof.
  intros Hinv [Hc Hr] Hca.
  pose proof (cached_initialized c s Hinv Hca) as Hi.
  destruct c; simpl in *; try exact I.
  all: destruct Hi as [Hi Hw]; rewrite Hi in Hr; splits; auto.
Qed.

(** C7: in every state a live process can be in, each of the three real
    operations has been looked up exactly as often as its pointer is
    cached, so at most once, and the body of [init] has run exactly as
    often as the flag is set, so at most once; no pointer is cached while
    the flag is clear.  With the flag set the initialisation is on record
    ([init_completed]): the device and the inode are the ones the real
    [__fxstat] gave for the file of P_FILE, 512 bytes ending in 0x55, 0xAA
    were read from it, and the window is the one computed from the entry
    of those bytes that P_NUM names; and the boot sector has been read as
    often as the flag is set.  A call that returns went on from a state
    [s1] in which its pointer was cached (the state it was made in, if the
    pointer was cached already), with the flag set, the initialisation on
    record and its one read of the boot sector done, all before anything
    was translated (fallocate, which has no pointer and no translation,
    apart); from [s1] on nothing is resolved, initialised or read and the
    window, the identity and the pointers stay as they are; and once the
    flag is set no call changes the window or the identity, and the window
    is the one [get_partition] reported when it found the partition. *)
Theorem pointers_resolved_once_init_once (s : process OS) :
  reachable H s ->
  (count (is_dlsym "lseek") (trace s) = resolved (real_lseek s) /\
   count (is_dlsym "__xstat") (trace s) = resolved (real_stat s) /\
   count (is_dlsym "__fxstat") (trace s) = resolved (real_fstat s) /\
   count is_init_body (trace s) = (if initialized s then 1%nat else 0%nat)) /\
  (initialized s = false ->
   real_lseek s = None /\ real_stat s = None /\ real_fstat s = None) /\
  detected s /\
  (initialized s = true -> init_completed H s) /\
  count is_read (trace s) = (if initialized s then 1%nat else 0%nat) /\
  (forall c a s',
      perform H c s = (Ret a, s') ->
      exists s1,
        cached c s1 /\ (cached c s -> s1 = s) /\
        perform H c s = perform H c s1 /\
        match c with
        | CallFallocate _ _ _ _ => True
        | _ => initialized s1 = true /\ window_ok s1 /\ init_completed H s1 /\
               count is_read (trace s1) = 1%nat
        end /\
        detected s1 /\
        settled s1 s' /\
        count is_read (trace s') = count is_read (trace s1) /\
        (initialized s = true -> same_view s s1) /\
        (forall f, real_lseek s = Some f -> real_lseek s1 = Some f) /\
        (forall f, real_stat s = Some f -> real_stat s1 = Some f) /\
        (forall f, real_fstat s = Some f -> real_fstat s1 = Some f)).
Proof.
  intros Hr. pose proof (reachable_inv s Hr) as Hinv.
  pose proof (reachable_detected s Hr) as Hdet.
  pose proof (reachable_completed s Hr) as Hcom.
  pose proof Hinv as (Hw & Hl & Hx & Hf & Hb & Hnull).
  pose proof Hcom as (Hrec & Hread).
  splits; auto.
  intros c a s' E. destruct (cached_dec c s) as [Hc | Hc].
  - exists s. splits; auto.
    + apply cached_completed; assumption.
    + apply (perform_ready_settled c s s' (Ret a)); assumption.
    + apply (perform_ready_reads_nothing c s s' (Ret a)); assumption.
    + intros _. unfold same_view, same_window. splits; reflexivity.
  - destruct (perform_first c s Hc)
      as [(s0 & E0) | (s1 & Hc1 & E1 & Hi1 & Hinv1 & Hv & Pl & Px & Pf & Pd & Pc)].
    + rewrite E0 in E. discriminate.
    + exists s1. splits; auto.
      * intros Habs. contradiction.
      * apply cached_completed; auto.
      * rewrite E1 in E. apply (perform_ready_settled c s1 s' (Ret a)); assumption.
      * rewrite E1 in E.
        apply (perform_ready_reads_nothing c s1 s' (Ret a)); assumption.
      * intros Hflag. apply Hv. exact Hflag.
Qed.

(** ** Sectors that are turned down *)

(** C5: when the 512 bytes read from the image do not end in 0x55, 0xAA,
    and also when the selected entry has a zero start sector or a zero
    sector count, [get_partition] returns -1 and leaves the window as it
    was; and the initialisation that asked for the partition aborts the
    process, the window still as it was. *)
Theorem bad_sector_is_fatal (name : string) (part_num : Z) (mbr : list byte) :
  (forall o, reads_sector H name o mbr) ->
  (u8 mbr 510 <> 85 \/ u8 mbr 511 <> 170) \/
  (1 <= part_num <= 8 /\
   (load32 mbr (446 + (part_num - 1) * 16 + 8) = 0 \/
    load32 mbr (446 + (part_num - 1) * 16 + 12) = 0)) ->
  (forall s : process OS,
      fst (get_partition H name part_num s) = Ret (-1) /\
      same_window s (snd (get_partition H name part_num s))) /\
  (forall (s : process OS) (str : string),
      initialized s = false ->
      getenv H "P_FILE" = Some name -> getenv H "P_NUM" = Some str ->
      atoi H str = part_num ->
      fst (init H s) = Stop Aborted /\ same_window s (snd (init H s))).
Proof.
  intros Hsec Hbad.
  assert (Hgp : forall s : process OS,
             fst (get_partition H name part_num s) = Ret (-1) /\
             same_window s (snd (get_partition H name part_num s))).
  { intros s.
    destruct (get_partition_on_sector name part_num mbr s (Hsec (os s)))
      as (Hsig & Hok).
    destruct (Z.eq_dec (u8 mbr 510) 85) as [E0 | E0];
      [destruct (Z.eq_dec (u8 mbr 511) 170) as [E1 | E1] |].
    - destruct Hbad as [[Hb | Hb] | (Hpn & Hzero)]; try contradiction.
      destruct (Hok E0 E1) as (Hext & Hprim).
      destruct (Z.lt_ge_cases part_num 4) as [Hlt | Hge].
      + destruct Hprim as (Hz & _); [lia |]. apply Hz. exact Hzero.
      + destruct (Hext Hge) as (Ha & Hb & _). split; assumption.
    - destruct Hsig as (Ha & Hb & _); [right; exact E1 | split; assumption].
    - destruct Hsig as (Ha & Hb & _); [left; exact E0 | split; assumption]. }
  split; [exact Hgp |].
  intros s str Hflag Hfile Hnum Hpn.
  destruct (init H s) as [o s'] eqn:E. simpl.
  destruct o as [[] | f].
  - exfalso.
    destruct (init_returns_after_resolution s s' Hflag E)
      as (name' & str' & sg & Hf' & Hn' & _ & Egp).
    rewrite Hfile in Hf'. rewrite Hnum in Hn'.
    inversion Hf'; inversion Hn'; subst.
    destruct (Hgp sg) as (Hr & _). rewrite Egp in Hr. discriminate.
  - pose proof (init_spec s s' (Stop f) E) as ([Ho | Ho] & _); [discriminate |].
    split; [exact Ho |]. apply (init_stop_keeps_window s s' f E).
Qed.

(** X14: on a signed sector, for index 1, 2 or 3 and an entry whose start
    sector and sector count are both above 0 and below 2^23, the 32-bit
    products do not wrap: [get_partition] returns 0 and the window is
    the exact one, base = 512 * start, size = 512 * count, end = base +
    size. *)
Lemma get_partition_window_exact (name : string) (part_num : Z)
    (mbr : list byte) (s : process OS) :
  reads_sector H name (os s) mbr ->
  u8 mbr 510 = 85 -> u8 mbr 511 = 170 -> 1 <= part_num < 4 ->
  0 < load32 mbr (446 + (part_num - 1) * 16 + 8) < 2 ^ 23 ->
  0 < load32 mbr (446 + (part_num - 1) * 16 + 12) < 2 ^ 23 ->
  fst (get_partition H name part_num s) = Ret 0 /\
  partition_base_bytes (snd (get_partition H name part_num s))
    = load32 mbr (446 + (part_num - 1) * 16 + 8) * 512 /\
  partition_size_bytes (snd (get_partition H name part_num s))
    = load32 mbr (446 + (part_num - 1) * 16 + 12) * 512 /\
  partition_end_bytes (snd (get_partition H name part_num s))
    = load32 mbr (446 + (part_num - 1) * 16 + 8) * 512
      + load32 mbr (446 + (part_num - 1) * 16 + 12) * 512.
Proof.
  intros Hsec E0 E1 Hpn HL HS.
  destruct (get_partition_on_sector name part_num mbr s Hsec) as (_ & Hok).
  destruct (Hok E0 E1) as (_ & Hprim).
  destruct (Hprim Hpn) as (_ & Hgood).
  destruct Hgood as (Hr & Hb & Hsz & He); [lia | lia |].
  rewrite Hb, Hsz, He, !wrap_u32_small by lia. auto.
Qed.

(** ** lseek with the pointer cached *)

Lemma lseek_ready_call (fd offset whence t w r : Z) (o' : OS)
    (f : real_lseek_t) (s : process OS) :
  real_lseek s = Some f ->
  lseek_switch offset whence s = Some (t, w) ->
  f fd t w (os s) = (r, o') ->
  fst (lseek H fd offset whence s)
    = (if r <? 0 then Ret r
       else if r >=? partition_base_bytes s
            then Ret (wrap_off (r - partition_base_bytes s))
            else Stop Aborted) /\
  extends (EvRealLseek fd t w :: trace s)
          (trace (snd (lseek H fd offset whence s))) /\
  count is_real_lseek (trace (snd (lseek H fd offset whence s)))
    = S (count is_real_lseek (trace s)).
Proof.
  intros Hf Hsw Hcall. unfold lseek. unfold_monad. simpl.
  rewrite Hf. simpl. rewrite Hsw. simpl. rewrite Hcall. simpl.
  destruct (r <? 0); simpl; [splits; [reflexivity | grow | rewrite count_cons; reflexivity] |].
  destruct (r >=? partition_base_bytes s); simpl;
    splits; try reflexivity; try grow; rewrite ?count_cons; reflexivity.
Qed.

Lemma lseek_switch_set (offset : Z) (s : process OS) :
  lseek_switch offset SEEK_SET s
  = Some (if wrap_off (offset + partition_base_bytes s) >? partition_end_bytes s
          then partition_end_bytes s
          else wrap_off (offset + partition_base_bytes s), SEEK_SET).
Proof. reflexivity. Qed.

Lemma lseek_switch_end (offset : Z) (s : process OS) :
  lseek_switch offset SEEK_END s = Some (partition_end_bytes s, SEEK_SET).
Proof. reflexivity. Qed.


Lemma extends_In (e : event) (t0 t : list event) :
  extends (e :: t0) t -> In e t.
Proof. intros [l ->]. apply in_or_app. right. left. reflexivity. Qed.

(** C6, as the code has it: the offset handed to the real seek is not
    below the base of the window for SEEK_END, and for SEEK_SET when the
    requested offset is not negative and its sum with the base fits
    [off_t]; and whenever the real seek, called with the offset of the
    switch, succeeds with a result below the base, the process aborts and
    no position is returned. *)
Theorem lseek_target_and_base (s : process OS) (f : real_lseek_t) (fd X : Z) :
  reachable H s -> real_lseek s = Some f ->
  (lseek_switch X SEEK_END s = Some (partition_end_bytes s, SEEK_SET) /\
   partition_base_bytes s <= partition_end_bytes s) /\
  (0 <= X -> X + partition_base_bytes s <= OFF_MAX ->
   exists t, lseek_switch X SEEK_SET s = Some (t, SEEK_SET) /\
             partition_base_bytes s <= t) /\
  (forall whence t w,
      lseek_switch X whence s = Some (t, w) ->
      0 <= fst (f fd t w (os s)) < partition_base_bytes s ->
      fst (lseek H fd X whence s) = Stop Aborted /\
      In (EvRealLseek fd t w) (trace (snd (lseek H fd X whence s)))).
Proof.
  intros Hr Hf.
  pose proof (reachable_inv s Hr) as ((Hb & Hs & He) & _).
  splits.
  - apply lseek_switch_end.
  - lia.
  - intros HX Hfit. rewrite lseek_switch_set.
    rewrite wrap_off_small by (unfold OFF_MAX in *; lia).
    eexists. split; [reflexivity |].
    destruct (X + partition_base_bytes s >? partition_end_bytes s); lia.
  - intros whence t w Hsw Hlow.
    destruct (f fd t w (os s)) as [r o'] eqn:Hcall. simpl in Hlow.
    destruct (lseek_ready_call fd X whence t w r o' f s Hf Hsw Hcall)
      as (Hres & Hext & _).
    split; [| apply (extends_In _ (trace s)); exact Hext].
    rewrite Hres.
    destruct (r <? 0) eqn:Hneg; [apply Z.ltb_lt in Hneg; lia |].
    destruct (r >=? partition_base_bytes s) eqn:Hge;
      [rewrite Z.geb_leb in Hge; apply Z.leb_le in Hge; lia | reflexivity].
Qed.

(** ** The stat overrides *)

Lemma fixup_statbuf_spec (ret : Z) (real_buf : stat) (s : process OS) :
  exists out,
    fixup_statbuf ret real_buf s = (Ret (ret, out), s) /\
    fixed_up s ret real_buf out.
Proof.
  unfold fixup_statbuf, fixed_up, is_target, S_ISREG. unfold_monad. simpl.
  destruct ((ret =? 0) && (Z.land (st_mode real_buf) S_IFMT =? S_IFREG)
            && (st_dev real_buf =? file_dev s) && (st_ino real_buf =? file_ino s))
    eqn:Hc.
  - exists (set_st_size (partition_size_bytes s) real_buf).
    split; [reflexivity |]. reflect_bool.
    splits; try (intros; contradiction).
    + intros _ _. unfold same_but_size; simpl. splits; reflexivity.
    + intros _ Hn. exfalso. apply Hn. splits; assumption.
  - exists real_buf. split; [reflexivity |].
    splits; try reflexivity.
    intros Hret (Hreg & Hdev & Hino). exfalso.
    apply Z.eqb_eq in Hret, Hreg, Hdev, Hino.
    rewrite Hret, Hreg, Hdev, Hino in Hc. discriminate.
Qed.

Lemma xstat_ready_call (ver : Z) (path : string) (buf : stat)
    (f : real_stat_t) (s : process OS) :
  real_stat s = Some f ->
  exists out,
    __xstat H ver path buf s
    = (Ret (fst (fst (f ver path buf (os s))), out),
       set_os (snd (f ver path buf (os s)))
              (set_trace (EvRealXstat ver path :: trace s) s)) /\
    fixed_up s (fst (fst (f ver path buf (os s))))
             (snd (fst (f ver path buf (os s)))) out.
Proof.
  intros Hf. unfold __xstat, __xstat_with. unfold_monad. simpl. rewrite Hf. simpl.
  destruct (f ver path buf (os s)) as [[ret real_buf] o'] eqn:Hcall. simpl.
  destruct (fixup_statbuf_spec ret real_buf
              (set_os o' (set_trace (EvRealXstat ver path :: trace s) s)))
    as (out & E & Hfix).
  exists out. rewrite E. split; [reflexivity | exact Hfix].
Qed.

Lemma fxstat_ready_call (ver fd : Z) (buf : stat)
    (f : real_fstat_t) (s : process OS) :
  real_fstat s = Some f ->
  exists out,
    __fxstat H ver fd buf s
    = (Ret (fst (fst (f ver fd buf (os s))), out),
       set_os (snd (f ver fd buf (os s)))
              (set_trace (EvRealFxstat ver fd :: trace s) s)) /\
    fixed_up s (fst (fst (f ver fd buf (os s))))
             (snd (fst (f ver fd buf (os s)))) out.
Proof.
  intros Hf. unfold __fxstat, __fxstat_with. unfold_monad. simpl. rewrite Hf. simpl.
  destruct (f ver fd buf (os s)) as [[ret real_buf] o'] eqn:Hcall. simpl.
  destruct (fixup_statbuf_spec ret real_buf
              (set_os o' (set_trace (EvRealFxstat ver fd :: trace s) s)))
    as (out & E & Hfix).
  exists out. rewrite E. split; [reflexivity | exact Hfix].
Qed.

(** C4: a call of [__xstat] or [__fxstat] either aborts in the
    initialisation of a first call, or goes on from a state [s1] with the
    pointer cached ([s] itself when the pointer was cached already) and
    there calls the real operation, once and before anything else; what the
    real operation returned is returned; when it is not 0, and when the
    buffer does not describe a regular file with the captured device and
    inode, the buffer goes back as the real operation left it; otherwise
    [st_size] is the size of the window and every other field is as the
    real operation left it.  Nothing but the state behind the host and the
    log changes in the process. *)
Theorem stat_overrides_fix_only_the_target (s : process OS) (buf : stat) :
  (forall ver path,
      (fst (__xstat H ver path buf s) = Stop Aborted /\ real_stat s = None)
      \/
      exists f s1 out,
        real_stat s1 = Some f /\ (real_stat s <> None -> s1 = s) /\
        __xstat H ver path buf s
        = (Ret (fst (fst (f ver path buf (os s1))), out),
           set_os (snd (f ver path buf (os s1)))
                  (set_trace (EvRealXstat ver path :: trace s1) s1)) /\
        fixed_up s1 (fst (fst (f ver path buf (os s1))))
                 (snd (fst (f ver path buf (os s1)))) out) /\
  (forall ver fd,
      (fst (__fxstat H ver fd buf s) = Stop Aborted /\ real_fstat s = None)
      \/
      exists f s1 out,
        real_fstat s1 = Some f /\ (real_fstat s <> None -> s1 = s) /\
        __fxstat H ver fd buf s
        = (Ret (fst (fst (f ver fd buf (os s1))), out),
           set_os (snd (f ver fd buf (os s1)))
                  (set_trace (EvRealFxstat ver fd :: trace s1) s1)) /\
        fixed_up s1 (fst (fst (f ver fd buf (os s1))))
                 (snd (fst (f ver fd buf (os s1)))) out).
Proof.
  split.
  - intros ver path. destruct (real_stat s) as [f |] eqn:Hf.
    + right. destruct (xstat_ready_call ver path buf f s Hf) as (out & E & Hfix).
      exists f, s, out. splits; auto.
    + destruct (xstat_first ver path buf s Hf)
        as [(s' & E & _) | (f & s1 & _ & E & F1 & _)].
      * left. rewrite E. split; reflexivity.
      * right. destruct (xstat_ready_call ver path buf f s1 F1) as (out & E1 & Hfix).
        exists f, s1, out. rewrite E. splits; auto.
        intros Hn. exfalso. apply Hn. reflexivity.
  - intros ver fd. destruct (real_fstat s) as [f |] eqn:Hf.
    + right. destruct (fxstat_ready_call ver fd buf f s Hf) as (out & E & Hfix).
      exists f, s, out. splits; auto.
    + destruct (fxstat_first ver fd buf s Hf)
        as [(s' & E & _) | (f & s1 & _ & E & F1 & _)].
      * left. rewrite E. split; reflexivity.
      * right. destruct (fxstat_ready_call ver fd buf f s1 F1) as (out & E1 & Hfix).
        exists f, s1, out. rewrite E. splits; auto.
        intros Hn. exfalso. apply Hn. reflexivity.
Qed.

End Facts.

(** * The worked example, and the theorems at concrete inputs *)

Example example_window :
  fst (lseek Demo.example_host 3 0 SEEK_SET (startup 0)) = Ret 0 /\
  partition_base_bytes Demo.example_ready = 1048576 /\
  partition_size_bytes Demo.example_ready = 104857600 /\
  partition_end_bytes Demo.example_ready = 105906176.
Proof. vm_compute. repeat split; reflexivity. Qed.

Example example_seek_boundary :
  fst (lseek Demo.example_host 3 104857600 SEEK_SET Demo.example_ready)
  = Ret 104857600.
Proof. vm_compute. reflexivity. Qed.

Example example_seek_clamped :
  fst (lseek Demo.example_host 3 104857700 SEEK_SET Demo.example_ready)
  = Ret 104857600.
Proof. vm_compute. reflexivity. Qed.

Example example_stat_target :
  fst (__xstat Demo.example_host 1 "disk.img" Demo.zero_stat Demo.example_ready)
  = Ret (0, set_st_size 104857600 Demo.disk_stat).
Proof. vm_compute. reflexivity. Qed.

Example example_stat_other :
  fst (__xstat Demo.example_host 1 "notes.txt" Demo.zero_stat Demo.example_ready)
  = Ret (0, Demo.notes_stat).
Proof. vm_compute. reflexivity. Qed.

(** A first call in a process without P_FILE ends in [init], whatever the
    call was. *)
Example example_first_call_unconfigured :
  fst (lseek Demo.unset_host 3 0 7 (startup 0)) = Stop Aborted /\
  fst (__xstat Demo.unset_host 1 "notes.txt" Demo.zero_stat (startup 0))
    = Stop Aborted /\
  fst (fallocate 3 0 0 4096 (startup (OS := Z) 0)) = Ret 0.
Proof. vm_compute. repeat split; reflexivity. Qed.

Lemma example_ready_reachable : reachable Demo.example_host Demo.example_ready.
Proof.
  apply (reachable_call Demo.example_host (startup 0)
           (CallLseek 3 0 SEEK_SET) (AnsLseek 0)).
  - apply reachable_startup.
  - vm_compute. reflexivity.
Qed.

Lemma example_reads_sector (filename part_num : option string) (o : Z) :
  reads_sector (Demo.the_host Demo.example_image filename part_num)
               "disk.img" o Demo.example_image.
Proof.
  exists 3, o, Demo.example_image, o.
  repeat split; try reflexivity. lia.
Qed.

Lemma example_ready_lseek :
  real_lseek Demo.example_ready = Some Demo.kernel_lseek.
Proof. vm_compute. reflexivity. Qed.

(** ** The fourth primary slot *)

(** C1, the code at index 4: the sector is signed and its fourth entry,
    at offset 446 + 3 * 16 = 494, holds start sector 2048 and 204800
    sectors, yet [get_partition] takes the branch of the extended
    partitions, returns -1 with that diagnostic, and [init] aborts. *)
Theorem get_partition_fourth_slot_rejected :
  u8 Demo.slot4_image 510 = 85 /\ u8 Demo.slot4_image 511 = 170 /\
  load32 Demo.slot4_image (446 + (4 - 1) * 16 + 8) = 2048 /\
  load32 Demo.slot4_image (446 + (4 - 1) * 16 + 12) = 204800 /\
  fst (get_partition Demo.slot4_host "disk.img" 4 (startup 0)) = Ret (-1) /\
  trace (snd (get_partition Demo.slot4_host "disk.img" 4 (startup 0)))
    = [EvClose 3; EvStderr MsgExtended; EvRead 3; EvOpen "disk.img"] /\
  fst (init Demo.slot4_host (startup 0)) = Stop Aborted.
Proof. vm_compute. repeat split; reflexivity. Qed.

(** X15: the indices the code serves and the ones it turns away, on any
    signed sector: from 4 up, [get_partition] prints the diagnostic of
    the extended partitions and returns -1; for 1, 2 and 3 with a
    non-empty entry it returns 0 with the base read at offset
    446 + (index - 1) * 16 + 8. *)
Lemma get_partition_index_ranges {OS : Type} (H : host OS) (name : string)
    (part_num : Z) (mbr : list byte) (s : process OS) :
  reads_sector H name (os s) mbr ->
  u8 mbr 510 = 85 -> u8 mbr 511 = 170 ->
  (4 <= part_num ->
   fst (get_partition H name part_num s) = Ret (-1) /\
   In (EvStderr MsgExtended) (trace (snd (get_partition H name part_num s)))) /\
  (1 <= part_num <= 3 ->
   load32 mbr (446 + (part_num - 1) * 16 + 8) <> 0 ->
   load32 mbr (446 + (part_num - 1) * 16 + 12) <> 0 ->
   fst (get_partition H name part_num s) = Ret 0 /\
   partition_base_bytes (snd (get_partition H name part_num s))
     = wrap_u32 (load32 mbr (446 + (part_num - 1) * 16 + 8) * 512)).
Proof.
  intros Hsec E0 E1.
  destruct (get_partition_on_sector H name part_num mbr s Hsec) as (_ & Hok).
  destruct (Hok E0 E1) as (Hext & Hprim). split.
  - intros Hge. destruct (Hext Hge) as (Ha & _ & Hc). split; assumption.
  - intros Hpn HL HS. destruct Hprim as (_ & Hgood); [lia |].
    destruct (Hgood HL HS) as (Ha & Hb & _). split; assumption.
Qed.

(** ** A partition beyond 4 GiB *)

(** C2, the code at start sector 2^23: the entry holds start sector
    8388608 and 204800 sectors, the exact base is 8388608 * 512 =
    4294967296, and [get_partition] succeeds with base 0 and end
    104857600: the product was taken in 32 bits. *)
Theorem get_partition_base_wraps :
  u8 Demo.far_image 510 = 85 /\ u8 Demo.far_image 511 = 170 /\
  load32 Demo.far_image (446 + 8) = 8388608 /\
  load32 Demo.far_image (446 + 12) = 204800 /\
  8388608 * 512 = 4294967296 /\
  fst (get_partition Demo.far_host "disk.img" 1 (startup 0)) = Ret 0 /\
  partition_base_bytes (snd (get_partition Demo.far_host "disk.img" 1 (startup 0))) = 0 /\
  partition_size_bytes (snd (get_partition Demo.far_host "disk.img" 1 (startup 0)))
    = 104857600 /\
  partition_end_bytes (snd (get_partition Demo.far_host "disk.img" 1 (startup 0)))
    = 104857600.
Proof. vm_compute. repeat split; reflexivity. Qed.

(** ** A negative offset *)

(** C6 fails at [lseek(3, -1, SEEK_SET)] on the worked example: the switch
    hands 1048575 to the real seek, one below the base 1048576; the real
    seek succeeds there; and the override aborts. *)
Lemma lseek_negative_offset_below_base :
  lseek_switch (-1) SEEK_SET Demo.example_ready = Some (1048575, SEEK_SET) /\
  partition_base_bytes Demo.example_ready = 1048576 /\
  fst (Demo.kernel_lseek 3 1048575 SEEK_SET (os Demo.example_ready)) = 1048575 /\
  fst (lseek Demo.example_host 3 (-1) SEEK_SET Demo.example_ready) = Stop Aborted /\
  In (EvRealLseek 3 1048575 SEEK_SET)
     (trace (snd (lseek Demo.example_host 3 (-1) SEEK_SET Demo.example_ready))).
Proof.
  vm_compute. repeat split; try reflexivity. right. left. reflexivity.
Qed.

Lemma lseek_target_and_base_witness :
  reachable Demo.example_host Demo.example_ready /\
  partition_base_bytes Demo.example_ready <= partition_end_bytes Demo.example_ready /\
  (exists t, lseek_switch 5 SEEK_SET Demo.example_ready = Some (t, SEEK_SET) /\
             partition_base_bytes Demo.example_ready <= t) /\
  fst (lseek Demo.example_host 3 (-1) SEEK_SET Demo.example_ready) = Stop Aborted.
Proof.
  assert (Hpos : 0 <= 5) by lia.
  assert (Hfit : 5 + partition_base_bytes Demo.example_ready <= OFF_MAX)
    by (vm_compute; discriminate).
  assert (Hsw : lseek_switch (-1) SEEK_SET Demo.example_ready
                = Some (1048575, SEEK_SET))
    by (vm_compute; reflexivity).
  assert (Hlow : 0 <= fst (Demo.kernel_lseek 3 1048575 SEEK_SET
                             (os Demo.example_ready))
                 < partition_base_bytes Demo.example_ready)
    by (vm_compute; split; [discriminate | reflexivity]).
  split; [exact example_ready_reachable |].
  split; [| split].
  - exact (proj2 (proj1 (lseek_target_and_base Demo.example_host
                           Demo.example_ready Demo.kernel_lseek 3 5
                           example_ready_reachable example_ready_lseek))).
  - exact (proj1 (proj2 (lseek_target_and_base Demo.example_host
                           Demo.example_ready Demo.kernel_lseek 3 5
                           example_ready_reachable example_ready_lseek))
             Hpos Hfit).
  - exact (proj1 (proj2 (proj2 (lseek_target_and_base Demo.example_host
                                  Demo.example_ready Demo.kernel_lseek 3 (-1)
                                  example_ready_reachable example_ready_lseek))
                    SEEK_SET 1048575 SEEK_SET Hsw Hlow)).
Defined.

(** ** The other theorems at the worked example *)


Lemma lseek_invalid_whence_witness :
  7 <> SEEK_SET /\ 7 <> SEEK_CUR /\ 7 <> SEEK_END /\
  lseek Demo.example_host 3 0 7 Demo.example_ready
  = (Ret (-1), set_errno EINVAL Demo.example_ready).
Proof.
  assert (H0 : 7 <> SEEK_SET) by discriminate.
  assert (H1 : 7 <> SEEK_CUR) by discriminate.
  assert (H2 : 7 <> SEEK_END) by discriminate.
  assert (Hc : real_lseek Demo.example_ready <> None)
    by (rewrite example_ready_lseek; discriminate).
  split; [exact H0 |]. split; [exact H1 |]. split; [exact H2 |].
  exact (proj2 (proj2 (lseek_invalid_whence Demo.example_host 3 0 7
                         Demo.example_ready H0 H1 H2)) Hc).
Defined.

Lemma init_never_reentered_witness :
  initialized (startup (OS := Z) 0) = false /\
  initialized (snd (init Demo.example_host (startup 0))) = true /\
  (exists later,
      trace (snd (init Demo.example_host (startup 0)))
        = later ++ EvInit false :: trace (startup (OS := Z) 0) /\
      count is_init_body later = 0%nat).
Proof.
  split; [reflexivity |]. split.
  - exact (proj1 (proj2 (init_never_reentered Demo.example_host (startup 0) eq_refl))).
  - exact (proj1 (init_never_reentered Demo.example_host (startup 0) eq_refl)).
Defined.

Lemma pointers_resolved_once_init_once_witness :
  reachable Demo.example_host Demo.example_ready /\
  count (is_dlsym "lseek") (trace Demo.example_ready)
    = resolved (real_lseek Demo.example_ready) /\
  count is_init_body (trace Demo.example_ready)
    = (if initialized Demo.example_ready then 1%nat else 0%nat) /\
  init_completed Demo.example_host Demo.example_ready /\
  count is_read (trace Demo.example_ready)
    = (if initialized Demo.example_ready then 1%nat else 0%nat).
Proof.
  assert (Hflag : initialized Demo.example_ready = true)
    by (vm_compute; reflexivity).
  split; [exact example_ready_reachable |].
  split; [| split; [| split]].
  - exact (proj1 (proj1 (pointers_resolved_once_init_once Demo.example_host
                           Demo.example_ready example_ready_reachable))).
  - exact (proj2 (proj2 (proj2 (proj1 (pointers_resolved_once_init_once
                           Demo.example_host Demo.example_ready
                           example_ready_reachable))))).
  - exact (proj1 (proj2 (proj2 (proj2 (pointers_resolved_once_init_once
                           Demo.example_host Demo.example_ready
                           example_ready_reachable)))) Hflag).
  - exact (proj1 (proj2 (proj2 (proj2 (proj2 (pointers_resolved_once_init_once
                           Demo.example_host Demo.example_ready
                           example_ready_reachable)))))).
Defined.

Lemma bad_sector_is_fatal_witness :
  (forall o, reads_sector Demo.empty_slot_host "disk.img" o Demo.example_image) /\
  load32 Demo.example_image (446 + (2 - 1) * 16 + 8) = 0 /\
  fst (get_partition Demo.empty_slot_host "disk.img" 2 (startup 0)) = Ret (-1) /\
  fst (init Demo.empty_slot_host (startup 0)) = Stop Aborted.
Proof.
  assert (Hsec : forall o, reads_sector Demo.empty_slot_host "disk.img" o
                             Demo.example_image)
    by (intros o; apply example_reads_sector).
  assert (Hzero : load32 Demo.example_image (446 + (2 - 1) * 16 + 8) = 0)
    by (vm_compute; reflexivity).
  assert (Hbad : (u8 Demo.example_image 510 <> 85 \/ u8 Demo.example_image 511 <> 170) \/
                 (1 <= 2 <= 8 /\
                  (load32 Demo.example_image (446 + (2 - 1) * 16 + 8) = 0 \/
                   load32 Demo.example_image (446 + (2 - 1) * 16 + 12) = 0))).
  { right. split; [lia | left; exact Hzero]. }
  split; [exact Hsec |]. split; [exact Hzero |]. split.
  - exact (proj1 (proj1 (bad_sector_is_fatal Demo.empty_slot_host "disk.img" 2
                           Demo.example_image Hsec Hbad) (startup 0))).
  - exact (proj1 (proj2 (bad_sector_is_fatal Demo.empty_slot_host "disk.img" 2
                           Demo.example_image Hsec Hbad)
                    (startup 0) "2"%string eq_refl eq_refl eq_refl eq_refl)).
Defined.

(** * Further properties of the code *)

(** ** get_partition and init, path by path *)

Section Paths.

Context {OS : Type} (H : host OS).

#[local] Arguments get_partition : simpl never.

(** X1: when the image does not open, [get_partition] returns -1 at once:
    it reads nothing, closes nothing, prints nothing, and leaves every
    global as it was. *)
Theorem get_partition_open_fails (name : string) (part_num fd : Z) (o1 : OS)
    (s : process OS) :
  sys_open H name (os s) = (fd, o1) -> fd < 0 ->
  get_partition H name part_num s
  = (Ret (-1), set_os o1 (set_trace (EvOpen name :: trace s) s)).
Proof.
  intros Hopen Hneg. unfold get_partition. unfold_monad. simpl.
  rewrite Hopen. simpl.
  destruct (fd <? 0) eqn:Hlt; [reflexivity | apply Z.ltb_ge in Hlt; lia].
Qed.

(** X2: when the read fails, or delivers fewer than 512 bytes,
    [get_partition] reports the value read returned, closes the
    descriptor and returns -1; the window is as it was. *)
Theorem get_partition_short_read (name : string) (part_num fd : Z)
    (o1 o2 : OS) (r : option (list byte)) (s : process OS) :
  sys_open H name (os s) = (fd, o1) -> 0 <= fd ->
  sys_read H fd o1 = (r, o2) ->
  (forall bytes, r = Some bytes -> (List.length bytes < 512)%nat) ->
  exists ret,
    ret <> 512 /\
    get_partition H name part_num s
    = (Ret (-1),
       set_os (sys_close H fd o2)
         (set_trace (EvClose fd :: EvStderr (MsgReadFailed ret)
                       :: EvRead fd :: EvOpen name :: trace s) s)).
Proof.
  intros Hopen Hfd Hread Hshort. unfold get_partition. unfold_monad. simpl.
  rewrite Hopen. simpl.
  destruct (fd <? 0) eqn:Hlt; [apply Z.ltb_lt in Hlt; lia |].
  simpl. rewrite Hread. destruct r as [bytes |]; simpl.
  - specialize (Hshort bytes eq_refl).
    assert (Hlen : Z.of_nat (List.length (firstn 512 bytes)) <> 512).
    { rewrite length_firstn. lia. }
    exists (Z.of_nat (List.length (firstn 512 bytes))). split; [exact Hlen |].
    apply Z.eqb_neq in Hlen. rewrite Hlen. reflexivity.
  - exists (-1). split; [lia |]. reflexivity.
Qed.

(** X3: [get_partition] closes what it opened.  Whenever it returns, it
    has opened the image once; when the open succeeded it has closed the
    descriptor once, as the last thing it did; when the open failed it has
    closed nothing. *)
Theorem get_partition_closes_descriptor (name : string) (part_num a : Z)
    (s s' : process OS) :
  get_partition H name part_num s = (Ret a, s') ->
  count is_open (trace s') = S (count is_open (trace s)) /\
  count is_close (trace s')
    = (count is_close (trace s)
       + (if (fst (sys_open H name (os s)) <? 0)%Z then 0 else 1))%nat /\
  (0 <= fst (sys_open H name (os s)) ->
   exists rest, trace s' = EvClose (fst (sys_open H name (os s))) :: rest).
Proof.
  intros E. unfold get_partition in E. unfold_monad. run E.
  all: try discriminate.
  all: finish E; rewrite ?count_cons; simpl.
  all: try match goal with
       | Q : (_ <? 0) = _ |- _ => rewrite Q
       end.
  all: splits; try lia.
  all: try (intros _; eexists; reflexivity).
  all: intros Hge; reflect_bool; lia.
Qed.

(** What a successful [get_partition] was asked for and what it left. *)
Lemma get_partition_success (name : string) (part_num : Z) (s s' : process OS) :
  get_partition H name part_num s = (Ret 0, s') ->
  part_num < 4 /\ window_ok s' /\ aligned s'.
Proof.
  intros E.
  pose proof (get_partition_frame H _ _ _ _ _ E) as (_ & _ & Hok & _).
  unfold get_partition in E. unfold_monad. run E.
  all: try discriminate.
  finish E. reflect_bool. splits; [assumption | apply Hok; reflexivity |].
  unfold aligned; simpl. split.
  all: unfold wrap_u32;
    rewrite Z.mod_mod_divide by (exists (2 ^ 23); reflexivity);
    apply Z.mod_mul; lia.
Qed.

(** X4: without P_FILE [init] aborts straight away: it has set the flag
    and printed its diagnostic, and has opened nothing, resolved nothing
    and written no other global. *)
Theorem init_without_filename (s : process OS) :
  initialized s = false -> getenv H "P_FILE" = None ->
  init H s
  = (Stop Aborted,
     set_trace (EvStderr MsgNoFilename :: EvInit false :: trace s)
       (set_initialized true s)).
Proof.
  intros Hflag Hfile. unfold init. simpl. unfold_monad. simpl.
  rewrite Hflag, Hfile. reflexivity.
Qed.

(** X5: when the image does not open, or when [fstat] on it fails, [init]
    aborts before it has written the identity: device, inode and window
    are as they were, the image is never read, and in the second case
    the descriptor is left open. *)
Theorem init_image_unusable (name : string) (fd : Z) (o1 : OS) (s : process OS) :
  initialized s = false -> getenv H "P_FILE" = Some name ->
  sys_open H name (os s) = (fd, o1) ->
  (fd < 0 ->
   init H s
   = (Stop Aborted,
      set_trace (EvStderr (MsgOpenFailed name) :: EvOpen name
                   :: EvInit false :: trace s)
        (set_os o1 (set_initialized true s)))) /\
  (forall f ret buf o2,
      0 <= fd ->
      match real_fstat s with Some g => Some g | None => next_fxstat H end
        = Some f ->
      f _STAT_VER fd (stack_stat H) o1 = ((ret, buf), o2) -> ret < 0 ->
      fst (init H s) = Stop Aborted /\
      file_dev (snd (init H s)) = file_dev s /\
      file_ino (snd (init H s)) = file_ino s /\
      same_window s (snd (init H s)) /\
      count is_read (trace (snd (init H s))) = count is_read (trace s) /\
      count is_close (trace (snd (init H s))) = count is_close (trace s)).
Proof.
  intros Hflag Hfile Hopen. split.
  - intros Hneg. unfold init. simpl. unfold_monad. simpl.
    rewrite Hflag, Hfile. simpl. rewrite Hopen. simpl.
    destruct (fd <? 0) eqn:Hlt; [reflexivity | apply Z.ltb_ge in Hlt; lia].
  - intros f ret buf o2 Hfd Hf Hcall Hret.
    destruct (init H s) as [o s'] eqn:E. unfold init in E. simpl in E.
    unfold __fxstat_with, fixup_statbuf in E. unfold_monad.
    rewrite Hflag, Hfile in E. simpl in E. rewrite Hopen in E. simpl in E.
    destruct (fd <? 0) eqn:Hlt; [apply Z.ltb_lt in Hlt; lia |].
    simpl in E. destruct (real_fstat s) as [g |] eqn:Hg.
    + inversion Hf; subst g. simpl in E. rewrite Hcall in E. simpl in E.
      assert (Hz : (ret =? 0) = false) by (apply Z.eqb_neq; lia).
      assert (Hn : (ret <? 0) = true) by (apply Z.ltb_lt; lia).
      rewrite ?Hz, ?Hn in E. simpl in E. rewrite ?Hn in E. finish E.
      unfold same_window; simpl. rewrite ?count_cons; simpl. splits; reflexivity.
    + simpl in E. rewrite Hf in E. simpl in E. rewrite Hcall in E. simpl in E.
      assert (Hz : (ret =? 0) = false) by (apply Z.eqb_neq; lia).
      assert (Hn : (ret <? 0) = true) by (apply Z.ltb_lt; lia).
      rewrite ?Hz, ?Hn in E. simpl in E. rewrite ?Hn in E. finish E.
      unfold same_window; simpl. rewrite ?count_cons; simpl. splits; reflexivity.
Qed.

(** X6: when P_NUM is unset, or its value is below 1 or above 8, [init]
    aborts; the image is never read and the window is as it was. *)
Theorem init_rejects_partition_number (s : process OS) :
  initialized s = false ->
  (getenv H "P_NUM" = None \/
   exists str, getenv H "P_NUM" = Some str /\ (atoi H str < 1 \/ 8 < atoi H str)) ->
  fst (init H s) = Stop Aborted /\
  same_window s (snd (init H s)) /\
  count is_read (trace (snd (init H s))) = count is_read (trace s).
Proof.
  intros Hflag Hnum.
  destruct (init H s) as [o s'] eqn:E. unfold init in E. simpl in E.
  unfold __fxstat_with, fixup_statbuf in E. unfold_monad.
  rewrite Hflag in E. run E.
  all: try (exfalso; destruct Hnum as [Hnum | (str & Hnum & Hrange)];
            [congruence |];
            rewrite ?Hnum in *; inversion Hnum; subst; reflect_bool; lia).
  all: finish E; unfold same_window; simpl; rewrite ?count_cons; simpl.
  all: splits; reflexivity.
Qed.

(** X7: when [init], entered with the flag clear, returns, the identity
    it has stored is the device and inode that the real [__fxstat] gave
    for the descriptor on which P_FILE opened, and that pointer is cached. *)
Theorem init_captures_identity (s s' : process OS) :
  initialized s = false -> init H s = (Ret tt, s') ->
  exists name f ret buf o2,
    getenv H "P_FILE" = Some name /\
    real_fstat s' = Some f /\
    f _STAT_VER (fst (sys_open H name (os s))) (stack_stat H)
      (snd (sys_open H name (os s))) = ((ret, buf), o2) /\
    0 <= ret /\
    file_dev s' = st_dev buf /\ file_ino s' = st_ino buf.
Proof.
  intros Hflag E. unfold init in E. simpl in E.
  unfold __fxstat_with, fixup_statbuf in E. unfold_monad.
  rewrite Hflag in E. run E.
  all: try discriminate.
  all: repeat match goal with
       | Q : get_partition _ _ _ _ = _ |- _ =>
           apply get_partition_frame in Q;
           destruct Q as ((_ & Hdev & Hino & _ & _ & Hfs & _) & _)
       end.
  all: finish E; simpl in *.
  all: match goal with
       | Q : sys_open H ?n _ = _ |- _ =>
           exists n; rewrite Q; simpl
       end.
  all: match goal with
       | Q : ?f _STAT_VER _ _ _ = (?p, ?o2) |- _ =>
           exists f, (fst p), (snd p), o2; destruct p; simpl in *
       end.
  all: reflect_bool; splits; try assumption; try reflexivity; try congruence.
Qed.

End Paths.

(** ** Calls, first and later *)

Section Runs.

Context {OS : Type} (H : host OS).

#[local] Arguments get_partition : simpl never.
#[local] Arguments lseek_switch : simpl never.
#[local] Arguments init_fuel : simpl never.

(** X8: when [dlsym] does not find the real operation, a call that needs
    it aborts at once: [init] is not entered, the flag is as it was, and
    nothing is opened. *)
Theorem unresolved_symbol_aborts (s : process OS) :
  (real_lseek s = None -> next_lseek H = None ->
   forall fd offset whence,
     fst (lseek H fd offset whence s) = Stop Aborted /\
     trace (snd (lseek H fd offset whence s))
       = EvStderr (MsgDlsymFailed "lseek") :: EvDlsym "lseek" :: trace s /\
     initialized (snd (lseek H fd offset whence s)) = initialized s) /\
  (real_stat s = None -> next_xstat H = None ->
   forall ver path buf,
     fst (__xstat H ver path buf s) = Stop Aborted /\
     trace (snd (__xstat H ver path buf s))
       = EvStderr (MsgDlsymFailed "__xstat") :: EvDlsym "__xstat" :: trace s /\
     initialized (snd (__xstat H ver path buf s)) = initialized s) /\
  (real_fstat s = None -> next_fxstat H = None ->
   forall ver fd buf,
     fst (__fxstat H ver fd buf s) = Stop Aborted /\
     trace (snd (__fxstat H ver fd buf s))
       = EvStderr (MsgDlsymFailed "__fxstat") :: EvDlsym "__fxstat" :: trace s /\
     initialized (snd (__fxstat H ver fd buf s)) = initialized s).
Proof.
  splits.
  - intros Hnull Hnext fd offset whence.
    unfold lseek. unfold_monad. simpl. rewrite Hnull, Hnext. simpl.
    splits; reflexivity.
  - intros Hnull Hnext ver path buf.
    unfold __xstat, __xstat_with. unfold_monad. simpl. rewrite Hnull, Hnext. simpl.
    splits; reflexivity.
  - intros Hnull Hnext ver fd buf.
    unfold __fxstat, __fxstat_with. unfold_monad. simpl. rewrite Hnull, Hnext. simpl.
    splits; reflexivity.
Qed.

(** [lseek] with the pointer cached, in full. *)
Lemma lseek_ready_run (fd offset whence t w r : Z) (o' : OS)
    (f : real_lseek_t) (s : process OS) :
  real_lseek s = Some f ->
  lseek_switch offset whence s = Some (t, w) ->
  f fd t w (os s) = (r, o') ->
  lseek H fd offset whence s
  = if r <? 0 then
      (Ret r, set_os o' (set_trace (EvRealLseek fd t w :: trace s) s))
    else if r >=? partition_base_bytes s then
      (Ret (wrap_off (r - partition_base_bytes s)),
       set_os o' (set_trace (EvRealLseek fd t w :: trace s) s))
    else
      (Stop Aborted,
       set_trace (EvStderr (MsgInvalidLocation r) :: EvRealLseek fd t w :: trace s)
         (set_os o' (set_trace (EvRealLseek fd t w :: trace s) s))).
Proof.
  intros Hf Hsw Hcall. unfold lseek. unfold_monad. simpl.
  rewrite Hf. simpl. rewrite Hsw. simpl. rewrite Hcall. simpl.
  destruct (r <? 0); [reflexivity |].
  destruct (r >=? partition_base_bytes s); reflexivity.
Qed.

(** X9: a failure of the real seek is handed back as it is: the value the
    real seek returned is the value of the call, and the shim changes
    nothing of its own, [errno] included. *)
Theorem lseek_propagates_failure (fd offset whence t w r : Z) (o' : OS)
    (f : real_lseek_t) (s : process OS) :
  real_lseek s = Some f ->
  lseek_switch offset whence s = Some (t, w) ->
  f fd t w (os s) = (r, o') -> r < 0 ->
  lseek H fd offset whence s
  = (Ret r, set_os o' (set_trace (EvRealLseek fd t w :: trace s) s)).
Proof.
  intros Hf Hsw Hcall Hneg.
  rewrite (lseek_ready_run fd offset whence t w r o' f s Hf Hsw Hcall).
  destruct (r <? 0) eqn:Hlt; [reflexivity | apply Z.ltb_ge in Hlt; lia].
Qed.

(** X10: a SEEK_CUR is not translated and not bounded: the real seek gets
    the caller's offset with SEEK_CUR, and a result at or above the base
    comes back less the base, also when it lies beyond the end of the
    window. *)
Theorem lseek_relative_passes_through (fd offset r : Z) (o' : OS)
    (f : real_lseek_t) (s : process OS) :
  reachable H s -> real_lseek s = Some f ->
  f fd offset SEEK_CUR (os s) = (r, o') ->
  partition_base_bytes s <= r <= OFF_MAX ->
  lseek H fd offset SEEK_CUR s
  = (Ret (r - partition_base_bytes s),
     set_os o' (set_trace (EvRealLseek fd offset SEEK_CUR :: trace s) s)).
Proof.
  intros Hr Hf Hcall Hrange.
  pose proof (reachable_inv H s Hr) as ((Hb & _) & _).
  assert (Hsw : lseek_switch offset SEEK_CUR s = Some (offset, SEEK_CUR))
    by reflexivity.
  rewrite (lseek_ready_run fd offset SEEK_CUR _ _ r o' f s Hf Hsw Hcall).
  destruct (r <? 0) eqn:Hlt; [apply Z.ltb_lt in Hlt; lia |].
  destruct (r >=? partition_base_bytes s) eqn:Hge;
    [| rewrite Z.geb_leb in Hge; apply Z.leb_gt in Hge; lia].
  rewrite wrap_off_small by (unfold OFF_MAX in *; lia). reflexivity.
Qed.

(** X11: seek, then ask where you are.  After a SEEK_SET to [X] inside
    the window, a SEEK_CUR by 0 reports [X] again, given a real seek that
    reports the position it was set to. *)
Theorem lseek_set_then_tell (fd X : Z) (o1 o2 : OS) (f : real_lseek_t)
    (s : process OS) :
  reachable H s -> real_lseek s = Some f ->
  0 <= X <= partition_size_bytes s ->
  f fd (X + partition_base_bytes s) SEEK_SET (os s)
    = (X + partition_base_bytes s, o1) ->
  f fd 0 SEEK_CUR o1 = (X + partition_base_bytes s, o2) ->
  fst (lseek H fd X SEEK_SET s) = Ret X /\
  fst (lseek H fd 0 SEEK_CUR (snd (lseek H fd X SEEK_SET s))) = Ret X.
Proof.
  intros Hr Hf HX Hset Htell.
  pose proof (reachable_inv H s Hr) as ((Hb & Hs & He) & _).
  assert (Hsw : lseek_switch X SEEK_SET s
                = Some (X + partition_base_bytes s, SEEK_SET)).
  { rewrite lseek_switch_set, wrap_off_small by (unfold OFF_MAX; lia).
    destruct (X + partition_base_bytes s >? partition_end_bytes s) eqn:Hgt;
      [rewrite Z.gtb_ltb in Hgt; apply Z.ltb_lt in Hgt; lia | reflexivity]. }
  rewrite (lseek_ready_run fd X SEEK_SET _ _ _ o1 f s Hf Hsw Hset).
  destruct (X + partition_base_bytes s <? 0) eqn:Hlt;
    [apply Z.ltb_lt in Hlt; lia |].
  destruct (X + partition_base_bytes s >=? partition_base_bytes s) eqn:Hge;
    [| rewrite Z.geb_leb in Hge; apply Z.leb_gt in Hge; lia].
  simpl.
  assert (Hback : wrap_off (X + partition_base_bytes s - partition_base_bytes s) = X)
    by (rewrite wrap_off_small by (unfold OFF_MAX; lia); lia).
  split; [rewrite Hback; reflexivity |].
  rewrite (lseek_ready_run fd 0 SEEK_CUR 0 SEEK_CUR
             (X + partition_base_bytes s) o2 f
             (set_os o1 (set_trace
                (EvRealLseek fd (X + partition_base_bytes s) SEEK_SET :: trace s) s))
             Hf eq_refl Htell).
  simpl. rewrite Hlt, Hge. simpl. rewrite Hback. reflexivity.
Qed.

(** A call that found its pointer null and returned has called [init],
    from a state with the view of the one the call was made in, and has
    gone on from the state [init] returned in. *)
Lemma first_call_runs_init (c : call) (a : answer) (s s' : process OS) :
  ~ cached c s -> perform H c s = (Ret a, s') ->
  exists st0 s1,
    same_view s st0 /\ init H st0 = (Ret tt, s1) /\ settled s1 s'.
Proof.
  destruct c as [fd off w | ver path buf | ver fd buf | fd mode off len];
    simpl; intros Hc E; unfold bind in E.
  - destruct (real_lseek s) eqn:Hnull; [exfalso; apply Hc; discriminate |].
    destruct (lseek H fd off w s) as [o1 s2] eqn:El.
    destruct o1 as [r |]; [| discriminate]. inversion E; subst s2 a. clear E.
    unfold lseek in El. unfold_monad. simpl in El. rewrite Hnull in El.
    simpl in El. destruct (next_lseek H) as [f |] eqn:Hnext; [| discriminate].
    simpl in El.
    match type of El with
    | context [init H ?st] =>
        exists st; destruct (init H st) as [oi s1] eqn:Ei
    end.
    destruct oi as [[] |]; [| discriminate]. exists s1.
    pose proof (init_spec H _ _ _ Ei) as (_ & _ & I2 & _). simpl in I2.
    splits.
    + unfold same_view, same_window; simpl. splits; reflexivity.
    + reflexivity.
    + apply (lseek_ready_settled H fd off w f s1 s' (Ret r) I2).
      unfold lseek. unfold_monad. simpl. rewrite I2. simpl. exact El.
  - destruct (real_stat s) eqn:Hnull; [exfalso; apply Hc; discriminate |].
    destruct (__xstat H ver path buf s) as [o1 s2] eqn:El.
    destruct o1 as [r |]; [| discriminate]. inversion E; subst s2 a. clear E.
    unfold __xstat, __xstat_with in El. unfold_monad. simpl in El.
    rewrite Hnull in El.
    simpl in El. destruct (next_xstat H) as [f |] eqn:Hnext; [| discriminate].
    simpl in El.
    match type of El with
    | context [init H ?st] =>
        exists st; destruct (init H st) as [oi s1] eqn:Ei
    end.
    destruct oi as [[] |]; [| discriminate]. exists s1.
    pose proof (init_spec H _ _ _ Ei) as (_ & _ & _ & I3 & _). simpl in I3.
    splits.
    + unfold same_view, same_window; simpl. splits; reflexivity.
    + reflexivity.
    + apply (xstat_ready_settled H ver path buf f s1 s' (Ret r) I3).
      unfold __xstat, __xstat_with. unfold_monad. simpl. rewrite I3. simpl.
      exact El.
  - destruct (real_fstat s) eqn:Hnull; [exfalso; apply Hc; discriminate |].
    destruct (__fxstat H ver fd buf s) as [o1 s2] eqn:El.
    destruct o1 as [r |]; [| discriminate]. inversion E; subst s2 a. clear E.
    unfold __fxstat, __fxstat_with in El. unfold_monad. simpl in El.
    rewrite Hnull in El.
    simpl in El. destruct (next_fxstat H) as [f |] eqn:Hnext; [| discriminate].
    simpl in El.
    match type of El with
    | context [init H ?st] =>
        exists st; destruct (init H st) as [oi s1] eqn:Ei
    end.
    destruct oi as [[] |]; [| discriminate]. exists s1.
    pose proof (init_spec H _ _ _ Ei) as (_ & _ & _ & _ & _ & I5 & _).
    simpl in I5. specialize (I5 f eq_refl).
    splits.
    + unfold same_view, same_window; simpl. splits; reflexivity.
    + reflexivity.
    + apply (fxstat_ready_settled H ver fd buf f s1 s' (Ret r) I5).
      unfold __fxstat, __fxstat_with. unfold_monad. simpl. rewrite I5. simpl.
      exact El.
  - exfalso. apply Hc. exact I.
Qed.

(** X12: once the flag is set in a live process, the environment names a
    file and a partition number from 1 to 3, and the window lies on sector
    boundaries: base and size are multiples of 512 below 2^32 and the end
    is their exact sum. *)
Theorem initialized_means_configured (s : process OS) :
  reachable H s -> initialized s = true ->
  configured H /\ aligned s /\ window_ok s.
Proof.
  intros Hr Hinit. split; [| split; [| apply (reachable_inv H s Hr)]];
    revert Hinit; induction Hr as [o | s c a s' Hr IH E]; intros Hflag;
    try discriminate.
  - destruct (cached_dec c s) as [Hc | Hc].
    + pose proof (perform_ready_settled H c s s' (Ret a) Hc E)
        as ((_ & _ & _ & Hfl) & _).
      apply IH. rewrite <- Hfl. exact Hflag.
    + destruct (first_call_runs_init c a s s' Hc E)
        as (st0 & s1 & (_ & _ & _ & Hfl0) & Ei & _).
      destruct (initialized st0) eqn:Hflag0.
      * apply IH. rewrite <- Hfl0. reflexivity.
      * destruct (init_returns_after_resolution H st0 s1 Hflag0 Ei)
          as (name & str & sg & Hfile & Hnum & Hrange & Egp).
        destruct (get_partition_success H name (atoi H str) sg s1 Egp) as (Hlt & _).
        exists name, str. splits; try assumption; lia.
  - destruct (cached_dec c s) as [Hc | Hc].
    + pose proof (perform_ready_settled H c s s' (Ret a) Hc E)
        as (((Hw1 & Hw2 & _) & _ & _ & Hfl) & _).
      unfold aligned. rewrite Hw1, Hw2. apply IH. rewrite <- Hfl. exact Hflag.
    + destruct (first_call_runs_init c a s s' Hc E)
        as (st0 & s1 & ((V1 & V2 & _) & _ & _ & Hfl0) & Ei
            & ((Hw1 & Hw2 & _) & _ & _ & Hfl1) & _).
      unfold aligned. rewrite Hw1, Hw2.
      destruct (initialized st0) eqn:Hflag0.
      * pose proof (init_spec H _ _ _ Ei) as (_ & _ & _ & _ & _ & _ & _ & _ & _ & _ & _ & I11 & _).
        destruct (I11 Hflag0) as (_ & ((U1 & U2 & _) & _) & _).
        rewrite U1, U2, V1, V2. apply IH. rewrite <- Hfl0. reflexivity.
      * destruct (init_returns_after_resolution H st0 s1 Hflag0 Ei)
          as (name & str & sg & _ & _ & _ & Egp).
        apply (get_partition_success H name (atoi H str) sg s1 Egp).
Qed.

(** X13: the size [__xstat] reports for the image is the position a
    SEEK_END reports: both are the size of the window. *)
Theorem stat_size_is_seek_end (ver fd offset : Z) (path : string) (buf : stat)
    (fs : real_stat_t) (fl : real_lseek_t) (s : process OS) :
  reachable H s ->
  real_stat s = Some fs -> real_lseek s = Some fl ->
  fst (fst (fs ver path buf (os s))) = 0 ->
  is_target s (snd (fst (fs ver path buf (os s)))) ->
  fst (fl fd (partition_end_bytes s) SEEK_SET (os s)) = partition_end_bytes s ->
  exists out,
    fst (__xstat H ver path buf s) = Ret (0, out) /\
    fst (lseek H fd offset SEEK_END s) = Ret (st_size out).
Proof.
  intros Hr Hfs Hfl Hret Htarget Hseek.
  pose proof (reachable_inv H s Hr) as ((Hb & Hs & He) & _).
  destruct (xstat_ready_call H ver path buf fs s Hfs) as (out & E & Hfix).
  exists out. rewrite E, Hret. simpl. split; [reflexivity |].
  destruct Hfix as (_ & Hsize & _).
  destruct (Hsize Hret Htarget) as (Hsz & _). rewrite Hsz.
  destruct (fl fd (partition_end_bytes s) SEEK_SET (os s)) as [r o'] eqn:Hcall.
  simpl in Hseek. subst r.
  rewrite (lseek_ready_run fd offset SEEK_END _ _ _ o' fl s Hfl eq_refl Hcall).
  destruct (partition_end_bytes s <? 0) eqn:Hlt; [apply Z.ltb_lt in Hlt; lia |].
  destruct (partition_end_bytes s >=? partition_base_bytes s) eqn:Hge;
    [| rewrite Z.geb_leb in Hge; apply Z.leb_gt in Hge; lia].
  simpl. rewrite wrap_off_small by (unfold OFF_MAX; lia). f_equal. lia.
Qed.

End Runs.

(** ** What a successful init costs *)

Section Accounting.

Context {OS : Type} (H : host OS).

Lemma get_partition_io (name : string) (part_num : Z) (s s' : process OS) :
  get_partition H name part_num s = (Ret 0, s') ->
  count is_open (trace s') = S (count is_open (trace s)) /\
  count is_read (trace s') = S (count is_read (trace s)) /\
  count is_close (trace s') = S (count is_close (trace s)) /\
  count is_real_fxstat (trace s') = count is_real_fxstat (trace s).
Proof.
  intros E. unfold get_partition in E. unfold_monad. run E.
  all: try discriminate.
  finish E. rewrite ?count_cons. simpl. splits; reflexivity.
Qed.

#[local] Arguments get_partition : simpl never.

(** X16: an [init] that returns, entered with the flag clear, has opened
    the image twice and closed both descriptors, has read it once, and has
    called the real [__fxstat] once: it leaves no descriptor open. *)
Theorem init_balances_descriptors (s s' : process OS) :
  initialized s = false -> init H s = (Ret tt, s') ->
  count is_open (trace s') = S (S (count is_open (trace s))) /\
  count is_close (trace s') = S (S (count is_close (trace s))) /\
  count is_read (trace s') = S (count is_read (trace s)) /\
  count is_real_fxstat (trace s') = S (count is_real_fxstat (trace s)).
Proof.
  intros Hflag E. unfold init in E. simpl in E.
  unfold __fxstat_with, fixup_statbuf in E. unfold_monad.
  rewrite Hflag in E. run E.
  all: try discriminate.
  all: match goal with
       | Q : get_partition _ _ _ _ = (Ret ?a, _) |- _ =>
           pose proof (get_partition_frame H _ _ _ _ _ Q) as (_ & _ & _ & _ & Hres & _);
           destruct Hres as [Hres | [Hres | [Hres _]]];
           inversion Hres; subst; reflect_bool; try lia;
           apply get_partition_io in Q;
           destruct Q as (Qo & Qr & Qc & Qf)
       end.
  all: finish E; simpl in *; rewrite ?count_cons in *; simpl in *.
  all: splits; lia.
Qed.

End Accounting.

(** ** The further properties at concrete inputs *)

Lemma get_partition_open_fails_witness :
  get_partition Demo.missing_host "missing.img" 1 (startup 0)
  = (Ret (-1),
     set_os 0 (set_trace (EvOpen "missing.img" :: trace (startup 0)) (startup 0))).
Proof.
  assert (Hopen : sys_open Demo.missing_host "missing.img" (os (startup 0)) = (-1, 0))
    by (vm_compute; reflexivity).
  assert (Hneg : -1 < 0) by lia.
  exact (get_partition_open_fails Demo.missing_host "missing.img" 1 (-1) 0
           (startup 0) Hopen Hneg).
Defined.

Lemma get_partition_short_read_witness :
  exists ret,
    ret <> 512 /\
    get_partition Demo.short_host "disk.img" 1 (startup 0)
    = (Ret (-1),
       set_os (sys_close Demo.short_host 3 0)
         (set_trace (EvClose 3 :: EvStderr (MsgReadFailed ret)
                       :: EvRead 3 :: EvOpen "disk.img" :: trace (startup 0))
            (startup 0))).
Proof.
  assert (Hopen : sys_open Demo.short_host "disk.img" (os (startup 0)) = (3, 0))
    by (vm_compute; reflexivity).
  assert (Hfd : 0 <= 3) by lia.
  assert (Hread : sys_read Demo.short_host 3 0 = (Some (repeat x00 100), 0))
    by (vm_compute; reflexivity).
  assert (Hshort : forall bytes, Some (repeat x00 100) = Some bytes ->
                                 (List.length bytes < 512)%nat).
  { intros bytes E. inversion E; subst. simpl. lia. }
  exact (get_partition_short_read Demo.short_host "disk.img" 1 3 0 0
           (Some (repeat x00 100)) (startup 0) Hopen Hfd Hread Hshort).
Defined.

Lemma get_partition_closes_descriptor_witness :
  count is_open
    (trace (snd (get_partition Demo.example_host "disk.img" 1 (startup 0))))
  = S (count is_open (trace (startup (OS := Z) 0))).
Proof.
  assert (E : get_partition Demo.example_host "disk.img" 1 (startup 0)
              = (Ret 0, snd (get_partition Demo.example_host "disk.img" 1 (startup 0))))
    by (vm_compute; reflexivity).
  exact (proj1 (get_partition_closes_descriptor Demo.example_host "disk.img" 1 0
                  (startup 0) _ E)).
Defined.

Lemma init_without_filename_witness :
  init Demo.unset_host (startup 0)
  = (Stop Aborted,
     set_trace (EvStderr MsgNoFilename :: EvInit false :: trace (startup 0))
       (set_initialized true (startup 0))).
Proof.
  exact (init_without_filename Demo.unset_host (startup 0) eq_refl eq_refl).
Defined.

Lemma init_image_unusable_witness :
  init Demo.missing_host (startup 0)
  = (Stop Aborted,
     set_trace (EvStderr (MsgOpenFailed "missing.img") :: EvOpen "missing.img"
                  :: EvInit false :: trace (startup 0))
       (set_os 0 (set_initialized true (startup 0)))) /\
  fst (init Demo.unstattable_host (startup 0)) = Stop Aborted.
Proof.
  assert (Hopen : sys_open Demo.missing_host "missing.img" (os (startup 0)) = (-1, 0))
    by (vm_compute; reflexivity).
  assert (Hopen5 : sys_open Demo.unstattable_host "disk.img" (os (startup 0)) = (5, 0))
    by (vm_compute; reflexivity).
  assert (Hneg : -1 < 0) by lia.
  assert (Hfd : 0 <= 5) by lia.
  assert (Hcall : Demo.kernel_fxstat _STAT_VER 5
                    (stack_stat Demo.unstattable_host) 0
                  = ((-1, Demo.zero_stat), 0))
    by (vm_compute; reflexivity).
  split.
  - exact (proj1 (init_image_unusable Demo.missing_host "missing.img" (-1) 0
                    (startup 0) eq_refl eq_refl Hopen) Hneg).
  - exact (proj1 (proj2 (init_image_unusable Demo.unstattable_host "disk.img" 5 0
                           (startup 0) eq_refl eq_refl Hopen5)
                    Demo.kernel_fxstat (-1) Demo.zero_stat 0
                    Hfd eq_refl Hcall Hneg)).
Defined.

Lemma init_rejects_partition_number_witness :
  fst (init Demo.ninth_host (startup 0)) = Stop Aborted /\
  same_window (startup 0) (snd (init Demo.ninth_host (startup 0))) /\
  count is_read (trace (snd (init Demo.ninth_host (startup 0))))
  = count is_read (trace (startup (OS := Z) 0)).
Proof.
  assert (Hnum : getenv Demo.ninth_host "P_NUM" = None \/
                 exists str, getenv Demo.ninth_host "P_NUM" = Some str /\
                             (atoi Demo.ninth_host str < 1 \/
                              8 < atoi Demo.ninth_host str)).
  { right. exists "9"%string. split; [reflexivity |]. right.
    vm_compute. reflexivity. }
  exact (init_rejects_partition_number Demo.ninth_host (startup 0) eq_refl Hnum).
Defined.

Lemma init_captures_identity_witness :
  exists name f ret buf o2,
    getenv Demo.example_host "P_FILE" = Some name /\
    real_fstat (snd (init Demo.example_host (startup 0))) = Some f /\
    f _STAT_VER (fst (sys_open Demo.example_host name (os (startup 0))))
      (stack_stat Demo.example_host)
      (snd (sys_open Demo.example_host name (os (startup 0))))
    = ((ret, buf), o2) /\
    0 <= ret /\
    file_dev (snd (init Demo.example_host (startup 0))) = st_dev buf /\
    file_ino (snd (init Demo.example_host (startup 0))) = st_ino buf.
Proof.
  assert (E : init Demo.example_host (startup 0)
              = (Ret tt, snd (init Demo.example_host (startup 0))))
    by (vm_compute; reflexivity).
  exact (init_captures_identity Demo.example_host (startup 0) _ eq_refl E).
Defined.

Lemma unresolved_symbol_aborts_witness :
  fst (lseek Demo.unlinked_host 3 0 SEEK_SET (startup 0)) = Stop Aborted /\
  trace (snd (lseek Demo.unlinked_host 3 0 SEEK_SET (startup 0)))
  = EvStderr (MsgDlsymFailed "lseek") :: EvDlsym "lseek"
      :: trace (startup (OS := Z) 0) /\
  initialized (snd (lseek Demo.unlinked_host 3 0 SEEK_SET (startup 0)))
  = initialized (startup (OS := Z) 0).
Proof.
  exact (proj1 (unresolved_symbol_aborts Demo.unlinked_host (startup 0))
           eq_refl eq_refl 3 0 SEEK_SET).
Defined.

Lemma lseek_propagates_failure_witness :
  lseek Demo.example_host 9 0 SEEK_SET Demo.example_ready
  = (Ret (-1),
     set_os 1048576
       (set_trace (EvRealLseek 9 1048576 SEEK_SET :: trace Demo.example_ready)
          Demo.example_ready)).
Proof.
  assert (Hsw : lseek_switch 0 SEEK_SET Demo.example_ready
                = Some (1048576, SEEK_SET))
    by (vm_compute; reflexivity).
  assert (Hcall : Demo.kernel_lseek 9 1048576 SEEK_SET (os Demo.example_ready)
                  = (-1, 1048576))
    by (vm_compute; reflexivity).
  assert (Hneg : -1 < 0) by lia.
  exact (lseek_propagates_failure Demo.example_host 9 0 SEEK_SET 1048576 SEEK_SET
           (-1) 1048576 Demo.kernel_lseek Demo.example_ready
           example_ready_lseek Hsw Hcall Hneg).
Defined.

Lemma lseek_relative_passes_through_witness :
  partition_size_bytes Demo.example_ready
    < 201048576 - partition_base_bytes Demo.example_ready /\
  lseek Demo.example_host 3 200000000 SEEK_CUR Demo.example_ready
  = (Ret (201048576 - partition_base_bytes Demo.example_ready),
     set_os 201048576
       (set_trace (EvRealLseek 3 200000000 SEEK_CUR :: trace Demo.example_ready)
          Demo.example_ready)).
Proof.
  assert (Hcall : Demo.kernel_lseek 3 200000000 SEEK_CUR (os Demo.example_ready)
                  = (201048576, 201048576))
    by (vm_compute; reflexivity).
  assert (Hrange : partition_base_bytes Demo.example_ready <= 201048576 <= OFF_MAX)
    by (vm_compute; split; discriminate).
  split; [vm_compute; reflexivity |].
  exact (lseek_relative_passes_through Demo.example_host 3 200000000 201048576
           201048576 Demo.kernel_lseek Demo.example_ready
           example_ready_reachable example_ready_lseek Hcall Hrange).
Defined.

Lemma lseek_set_then_tell_witness :
  fst (lseek Demo.example_host 3 4096 SEEK_SET Demo.example_ready) = Ret 4096 /\
  fst (lseek Demo.example_host 3 0 SEEK_CUR
         (snd (lseek Demo.example_host 3 4096 SEEK_SET Demo.example_ready)))
  = Ret 4096.
Proof.
  assert (HX : 0 <= 4096 <= partition_size_bytes Demo.example_ready)
    by (vm_compute; split; discriminate).
  assert (Hset : Demo.kernel_lseek 3 (4096 + partition_base_bytes Demo.example_ready)
                   SEEK_SET (os Demo.example_ready)
                 = (4096 + partition_base_bytes Demo.example_ready, 1052672))
    by (vm_compute; reflexivity).
  assert (Htell : Demo.kernel_lseek 3 0 SEEK_CUR 1052672
                  = (4096 + partition_base_bytes Demo.example_ready, 1052672))
    by (vm_compute; reflexivity).
  exact (lseek_set_then_tell Demo.example_host 3 4096 1052672 1052672
           Demo.kernel_lseek Demo.example_ready
           example_ready_reachable example_ready_lseek HX Hset Htell).
Defined.

Lemma example_ready_initialized : initialized Demo.example_ready = true.
Proof. vm_compute. reflexivity. Qed.

Lemma initialized_means_configured_witness :
  configured Demo.example_host /\ aligned Demo.example_ready /\
  window_ok Demo.example_ready.
Proof.
  exact (initialized_means_configured Demo.example_host Demo.example_ready
           example_ready_reachable example_ready_initialized).
Defined.

Lemma example_steady_reachable : reachable Demo.example_host Demo.example_steady.
Proof.
  apply (reachable_call Demo.example_host Demo.example_ready
           (CallXstat 1 "notes.txt" Demo.zero_stat) (AnsStat 0 Demo.notes_stat)).
  - exact example_ready_reachable.
  - vm_compute. reflexivity.
Qed.

Lemma example_steady_pointers :
  real_stat Demo.example_steady = Some Demo.kernel_xstat /\
  real_lseek Demo.example_steady = Some Demo.kernel_lseek.
Proof. vm_compute. split; reflexivity. Qed.

Lemma stat_size_is_seek_end_witness :
  exists out,
    fst (__xstat Demo.example_host 1 "disk.img" Demo.zero_stat Demo.example_steady)
    = Ret (0, out) /\
    fst (lseek Demo.example_host 3 77 SEEK_END Demo.example_steady)
    = Ret (st_size out).
Proof.
  assert (Hret : fst (fst (Demo.kernel_xstat 1 "disk.img" Demo.zero_stat
                             (os Demo.example_steady))) = 0)
    by (vm_compute; reflexivity).
  assert (Htarget : is_target Demo.example_steady
                      (snd (fst (Demo.kernel_xstat 1 "disk.img" Demo.zero_stat
                                   (os Demo.example_steady)))))
    by (unfold is_target; vm_compute; repeat split; reflexivity).
  assert (Hseek : fst (Demo.kernel_lseek 3 (partition_end_bytes Demo.example_steady)
                         SEEK_SET (os Demo.example_steady))
                  = partition_end_bytes Demo.example_steady)
    by (vm_compute; reflexivity).
  exact (stat_size_is_seek_end Demo.example_host 1 3 77 "disk.img" Demo.zero_stat
           Demo.kernel_xstat Demo.kernel_lseek Demo.example_steady
           example_steady_reachable
           (proj1 example_steady_pointers) (proj2 example_steady_pointers)
           Hret Htarget Hseek).
Defined.

Lemma get_partition_window_exact_witness :
  fst (get_partition Demo.example_host "disk.img" 1 (startup 0)) = Ret 0 /\
  partition_base_bytes (snd (get_partition Demo.example_host "disk.img" 1 (startup 0)))
    = load32 Demo.example_image (446 + (1 - 1) * 16 + 8) * 512 /\
  partition_size_bytes (snd (get_partition Demo.example_host "disk.img" 1 (startup 0)))
    = load32 Demo.example_image (446 + (1 - 1) * 16 + 12) * 512 /\
  partition_end_bytes (snd (get_partition Demo.example_host "disk.img" 1 (startup 0)))
    = load32 Demo.example_image (446 + (1 - 1) * 16 + 8) * 512
      + load32 Demo.example_image (446 + (1 - 1) * 16 + 12) * 512.
Proof.
  assert (H510 : u8 Demo.example_image 510 = 85) by (vm_compute; reflexivity).
  assert (H511 : u8 Demo.example_image 511 = 170) by (vm_compute; reflexivity).
  assert (Hpn : 1 <= 1 < 4) by lia.
  assert (HL : 0 < load32 Demo.example_image (446 + (1 - 1) * 16 + 8) < 2 ^ 23)
    by (vm_compute; split; reflexivity).
  assert (HS : 0 < load32 Demo.example_image (446 + (1 - 1) * 16 + 12) < 2 ^ 23)
    by (vm_compute; split; reflexivity).
  exact (get_partition_window_exact Demo.example_host "disk.img" 1
           Demo.example_image (startup 0)
           (example_reads_sector _ _ _) H510 H511 Hpn HL HS).
Defined.

Lemma get_partition_index_ranges_witness :
  fst (get_partition Demo.example_host "disk.img" 5 (startup 0)) = Ret (-1) /\
  In (EvStderr MsgExtended)
     (trace (snd (get_partition Demo.example_host "disk.img" 5 (startup 0)))).
Proof.
  assert (H510 : u8 Demo.example_image 510 = 85) by (vm_compute; reflexivity).
  assert (H511 : u8 Demo.example_image 511 = 170) by (vm_compute; reflexivity).
  assert (Hge : 4 <= 5) by lia.
  exact (proj1 (get_partition_index_ranges Demo.example_host "disk.img" 5
                  Demo.example_image (startup 0)
                  (example_reads_sector _ _ _) H510 H511) Hge).
Defined.

Lemma init_balances_descriptors_witness :
  count is_open (trace (snd (init Demo.example_host (startup 0))))
    = S (S (count is_open (trace (startup (OS := Z) 0)))) /\
  count is_close (trace (snd (init Demo.example_host (startup 0))))
    = S (S (count is_close (trace (startup (OS := Z) 0)))) /\
  count is_read (trace (snd (init Demo.example_host (startup 0))))
    = S (count is_read (trace (startup (OS := Z) 0))) /\
  count is_real_fxstat (trace (snd (init Demo.example_host (startup 0))))
    = S (count is_real_fxstat (trace (startup (OS := Z) 0))).
Proof.
  assert (E : init Demo.example_host (startup 0)
              = (Ret tt, snd (init Demo.example_host (startup 0))))
    by (vm_compute; reflexivity).
  exact (init_balances_descriptors Demo.example_host (startup 0) _ eq_refl E).
Defined.
